(** * TireTrade Pro API: the Terminal49 tracking relay of [main.py]

    A shallow embedding of the three tracking handlers of [src/main.py]
    ([track_by_booking], [poll_tracking_request], [search_shipments_by_bol])
    together with the fragment of Python they rely on: strings with
    [str.strip], JSON values as produced by [json.loads], [dict.get] with its
    [AttributeError] on non-dict receivers, truthiness, and exceptions.

    The upstream provider is an oracle.  Every handler threads the list of
    upstream calls made so far (the trace), so that "no network call" and
    "no shipment fetch" are statements about that list. *)

From Stdlib Require Import List ZArith NArith Ascii String Bool Lia SpecFloat.
Import ListNotations.

(* ------------------------------------------------------------------------- *)
(** ** Python strings *)
(* ------------------------------------------------------------------------- *)

(** A Python [str] is a sequence of Unicode code points. *)
Definition str := list N.

(** ASCII literals of the source text. *)
Definition lit (s : string) : str := map N_of_ascii (list_ascii_of_string s).

(** The double-quote character, which the f-string of the unknown-carrier
    message contains. *)
Definition dquote : str := [34%N].

Fixpoint str_eqb (a b : str) : bool :=
  match a, b with
  | [], [] => true
  | x :: a', y :: b' => N.eqb x y && str_eqb a' b'
  | _, _ => false
  end.

(** [str.isspace] on one code point: the characters [str.strip()] removes
    (CPython's [_PyUnicode_IsWhitespace]). *)
Definition isspace (c : N) : bool :=
  (((9 <=? c) && (c <=? 13)) || ((28 <=? c) && (c <=? 32))
   || (c =? 133) || (c =? 160) || (c =? 5760)
   || ((8192 <=? c) && (c <=? 8202))
   || (c =? 8232) || (c =? 8233) || (c =? 8239) || (c =? 8287)
   || (c =? 12288))%N.

Fixpoint lstrip (s : str) : str :=
  match s with
  | c :: s' => if isspace c then lstrip s' else s
  | [] => []
  end.

Definition rstrip (s : str) : str := rev (lstrip (rev s)).

(** [s.strip()] *)
Definition strip (s : str) : str := rstrip (lstrip s).

(** [sep.join(xs)] *)
Fixpoint join (sep : str) (xs : list str) : str :=
  match xs with
  | [] => []
  | [x] => x
  | x :: rest => x ++ sep ++ join sep rest
  end.

(** Truthiness of a [str]: non-empty. *)
Definition str_truthy (s : str) : bool :=
  match s with [] => false | _ :: _ => true end.

(* ------------------------------------------------------------------------- *)
(** ** JSON values, as [json.loads] / [resp.json()] build them *)
(* ------------------------------------------------------------------------- *)

(** A [dict] is kept as an association list in insertion order; lookup takes
    the first binding of a key. *)
#[warnings="-register-all"]
Inductive json : Type :=
| JNull
| JBool (b : bool)
| JInt (n : Z)
| JFloat (x : spec_float)
| JStr (s : str)
| JList (items : list json)
| JDict (fields : list (str * json)).

(** [bool(v)] *)
Definition truthy (v : json) : bool :=
  match v with
  | JNull => false
  | JBool b => b
  | JInt n => negb (Z.eqb n 0)
  | JFloat (S754_zero _) => false
  | JFloat _ => true
  | JStr s => str_truthy s
  | JList [] => false
  | JList (_ :: _) => true
  | JDict [] => false
  | JDict (_ :: _) => true
  end.

(** [type(v).__name__] *)
Definition type_name (v : json) : str :=
  match v with
  | JNull => lit "NoneType"
  | JBool _ => lit "bool"
  | JInt _ => lit "int"
  | JFloat _ => lit "float"
  | JStr _ => lit "str"
  | JList _ => lit "list"
  | JDict _ => lit "dict"
  end.

(** [v == "literal"]: only a [str] compares equal to a [str]. *)
Definition eq_str (v : json) (s : str) : bool :=
  match v with
  | JStr t => str_eqb t s
  | _ => false
  end.

Fixpoint lookup {A : Type} (d : list (str * A)) (k : str) : option A :=
  match d with
  | [] => None
  | (k', v) :: d' => if str_eqb k' k then Some v else lookup d' k
  end.

(** Field of a returned envelope or record; [None] when the key is absent or
    the value is not a dict. *)
Definition field (v : json) (k : string) : option json :=
  match v with
  | JDict d => lookup d (lit k)
  | _ => None
  end.

(* ------------------------------------------------------------------------- *)
(** ** Exceptions *)
(* ------------------------------------------------------------------------- *)

(** An instance of [Exception]: whether it is an [httpx.TimeoutException],
    and its [str(e)]. *)
Record exn : Type := Exn { is_timeout : bool; exn_str : str }.

(** [fastapi.HTTPException(status_code, detail)] *)
Record http_exception : Type :=
  HTTPException { http_status : Z; detail : str }.

(** ['T' object has no attribute 'get'] *)
Definition AttributeError_get (v : json) : exn :=
  Exn false (lit "'" ++ type_name v ++ lit "' object has no attribute 'get'").

(** ['T' object is not iterable] *)
Definition TypeError_not_iterable (v : json) : exn :=
  Exn false (lit "'" ++ type_name v ++ lit "' object is not iterable").

(** [v.get(k, default)]: defined on dicts only. *)
Definition py_get (v : json) (k : string) (default : json) : exn + json :=
  match v with
  | JDict d =>
      match lookup d (lit k) with
      | Some x => inr x
      | None => inr default
      end
  | _ => inl (AttributeError_get v)
  end.

(** The items a [for x in v] loop visits.  A dict yields its keys, a string
    its characters (each a one-character [str]); [None], booleans and numbers
    are not iterable. *)
Definition py_iter (v : json) : exn + list json :=
  match v with
  | JList items => inr items
  | JDict d => inr (map (fun kv => JStr (fst kv)) d)
  | JStr s => inr (map (fun c => JStr [c]) s)
  | _ => inl (TypeError_not_iterable v)
  end.

(** Sequencing of computations that may raise but make no call. *)
Definition and_then {A B} (r : exn + A) (k : A -> exn + B) : exn + B :=
  match r with
  | inr a => k a
  | inl e => inl e
  end.

Declare Scope py_scope.
Delimit Scope py_scope with py.
Notation "x <~ r ;; k" := (and_then r (fun x => k))
  (at level 61, r at next level, right associativity) : py_scope.

(** ['k'], the [str] of a [KeyError]. *)
Definition KeyError (k : string) : exn :=
  Exn false (lit "'" ++ lit k ++ lit "'").

(** [v[k]] for a string key [k]. *)
Definition py_getitem (v : json) (k : string) : exn + json :=
  match v with
  | JDict d =>
      match lookup d (lit k) with
      | Some x => inr x
      | None => inl (KeyError k)
      end
  | JList _ =>
      inl (Exn false (lit "list indices must be integers or slices, not str"))
  | JStr _ =>
      inl (Exn false (lit "string indices must be integers, not 'str'"))
  | _ =>
      inl (Exn false (lit "'" ++ type_name v ++ lit "' object is not subscriptable"))
  end.

(** The empty dict literal of a [.get(key, {})] default. *)
Definition empty_dict : json := JDict [].

(* ------------------------------------------------------------------------- *)
(** ** CONFIG *)
(* ------------------------------------------------------------------------- *)

(** [os.getenv(name, default)] on the value the environment holds. *)
Definition getenv (var : option str) (default : str) : str :=
  match var with
  | Some v => v
  | None => default
  end.

Definition YOUR_API_KEY_HERE : str := lit "YOUR_API_KEY_HERE".

Definition SCAC_MAP : list (str * str) :=
  [ (lit "Maersk", lit "MAEU"); (lit "MSC", lit "MSCU"); (lit "CMA CGM", lit "CMDU");
    (lit "Hapag-Lloyd", lit "HLCU"); (lit "COSCO", lit "COSU"); (lit "ONE", lit "ONEY");
    (lit "Evergreen", lit "EGLV"); (lit "HMM", lit "HDMU"); (lit "ZIM", lit "ZIMU");
    (lit "Yang Ming", lit "YMLU") ].

(** [SCAC_MAP.keys()] *)
Definition SCAC_MAP_keys : list str := map fst SCAC_MAP.

(* ------------------------------------------------------------------------- *)
(** ** The upstream provider *)
(* ------------------------------------------------------------------------- *)

(** The five upstream calls.  The URL is [T49_BASE] followed by the path in
    the comment; an identifier taken from an upstream body is kept as the
    JSON value the f-string interpolates.  Every call carries
    [t49_headers()]. *)
Inductive request : Type :=
| CreateTrackingRequest (payload : json)   (* POST /tracking_requests, json=payload *)
| ReadTrackingRequest (request_id : str)   (* GET  /tracking_requests/{request_id} *)
| ReadShipment (shipment_id : json)        (* GET  /shipments/{shipment_id} *)
| ReadContainer (cid : json)               (* GET  /containers/{cid} *)
| SearchShipments (bol : str).             (* GET  /shipments?filter[bill_of_lading_number]=bol *)

(** An [httpx.Response]: its [status_code], and what [resp.json()] gives:
    the decoded body, or the message of the decoding error it raises. *)
Record response : Type :=
  Response { status_code : Z; body : str + json }.

(** What awaiting a call gives: a response, or a raised exception. *)
Inductive outcome : Type :=
| Returned (r : response)
| Raised (e : exn).

Definition event : Type := (request * outcome)%type.

(** The provider answers a call knowing every earlier call of the handler
    invocation and its outcome. *)
Definition upstream : Type := list event -> request -> outcome.

(* ------------------------------------------------------------------------- *)
(** ** The body of a [try] block: trace passing with exceptions *)
(* ------------------------------------------------------------------------- *)

Definition M (A : Type) : Type := list event -> list event * (exn + A).

Definition ret {A} (a : A) : M A := fun h => (h, inr a).

Definition raise {A} (e : exn) : M A := fun h => (h, inl e).

Definition bind {A B} (m : M A) (k : A -> M B) : M B :=
  fun h =>
    match m h with
    | (h', inr a) => k a h'
    | (h', inl e) => (h', inl e)
    end.

(** A computation that makes no call. *)
Definition lift {A} (r : exn + A) : M A := fun h => (h, r).

Notation "x <- m ;; k" := (bind m (fun x => k))
  (at level 61, m at next level, right associativity) : py_scope.

(** [await client.get(...)] / [await client.post(...)] *)
Definition call (net : upstream) (rq : request) : M response :=
  fun h =>
    let o := net h rq in
    (h ++ [(rq, o)],
     match o with
     | Returned r => inr r
     | Raised e => inl e
     end).

(** [resp.json()] *)
Definition json_of (r : response) : exn + json :=
  match body r with
  | inr v => inr v
  | inl msg => inl (Exn false msg)
  end.

(** A handler's result: the upstream calls it made, and either the raised
    [HTTPException] or the returned JSON envelope. *)
Definition result : Type := (list event * (http_exception + json))%type.

(** [except httpx.TimeoutException: raise HTTPException(504, msg)]
    [except Exception as e: raise HTTPException(502, str(e))] *)
Definition except_504_502 (msg : str) (r : list event * (exn + json)) : result :=
  match r with
  | (h, inr v) => (h, inr v)
  | (h, inl e) =>
      if is_timeout e then (h, inl (HTTPException 504 msg))
      else (h, inl (HTTPException 502 (exn_str e)))
  end.

(** [except Exception as e: raise HTTPException(502, str(e))] *)
Definition except_502 (r : list event * (exn + json)) : result :=
  match r with
  | (h, inr v) => (h, inr v)
  | (h, inl e) => (h, inl (HTTPException 502 (exn_str e)))
  end.

(* ------------------------------------------------------------------------- *)
(** ** TERMINAL49: BOOKING-BASED TRACKING *)
(* ------------------------------------------------------------------------- *)

Record TrackBookingRequest : Type :=
  { bookingRef : str;
    carrier : str }.

Section Handlers.

Local Open Scope py_scope.
Local Open Scope Z_scope.

(** The value of the environment variable [TERMINAL49_API_KEY], if set. *)
Variable env_api_key : option str.

Variable net : upstream.

Definition TERMINAL49_API_KEY : str := getenv env_api_key YOUR_API_KEY_HERE.

(** [TERMINAL49_API_KEY == "YOUR_API_KEY_HERE"] *)
Definition not_configured : bool := str_eqb TERMINAL49_API_KEY YOUR_API_KEY_HERE.

Definition T49_BASE : str := lit "https://api.terminal49.com/v2".

(** [t49_headers()], sent with every upstream call. *)
Definition t49_headers : list (str * str) :=
  [ (lit "Content-Type", lit "application/vnd.api+json");
    (lit "Authorization", lit "Token " ++ TERMINAL49_API_KEY) ].

(** *** POST /api/track *)

Definition tracking_payload (request_number scac : str) : json :=
  JDict [ (lit "data",
           JDict [ (lit "type", JStr (lit "tracking_request"));
                   (lit "attributes",
                    JDict [ (lit "request_type", JStr (lit "bill_of_lading"));
                            (lit "request_number", JStr request_number);
                            (lit "scac", JStr scac) ]) ]) ].

Definition unknown_carrier_detail (name : str) : str :=
  lit "Unknown carrier " ++ dquote ++ name ++ dquote
  ++ lit ". Supported: " ++ join (lit ", ") SCAC_MAP_keys.

Definition duplicate_message : str :=
  lit "Booking already tracked. Fetching existing shipment data...".

(** The [try] block of [track_by_booking]. *)
Definition track_by_booking_try (payload : json) : M json :=
  resp <- call net (CreateTrackingRequest payload) ;;
  data <- lift (json_of resp) ;;
  if status_code resp =? 422 then
    ret (JDict [ (lit "success", JBool true); (lit "status", JInt 422);
                 (lit "duplicate", JBool true); (lit "data", data);
                 (lit "message", JStr duplicate_message) ])
  else
    ret (JDict [ (lit "success",
                  JBool ((status_code resp =? 200) || (status_code resp =? 201)
                         || (status_code resp =? 202)));
                 (lit "status", JInt (status_code resp)); (lit "data", data) ]).

Definition track_by_booking (req : TrackBookingRequest) : result :=
  if negb (str_truthy (bookingRef req)) || negb (str_truthy (strip (bookingRef req))) then
    ([], inl (HTTPException 400 (lit "Booking reference is required")))
  else if not_configured then
    ([], inl (HTTPException 503
       (lit "Terminal49 API key not configured. Set TERMINAL49_API_KEY env var on Render.")))
  else
    (* [scac = SCAC_MAP.get(req.carrier)], then [if not scac: raise ...] *)
    match lookup SCAC_MAP (carrier req) with
    | Some scac =>
        if negb (str_truthy scac) then
          ([], inl (HTTPException 400 (unknown_carrier_detail (carrier req))))
        else
          except_504_502 (lit "Terminal49 request timed out")
            (track_by_booking_try
               (tracking_payload (strip (bookingRef req)) scac) [])
    | None =>
        ([], inl (HTTPException 400 (unknown_carrier_detail (carrier req))))
    end.

(** *** GET /api/track/{request_id} *)

(** [tr_data.get("data", {}).get("attributes", {})] *)
Definition tracking_attrs (tr_data : json) : exn + json :=
  d <~ py_get tr_data "data" empty_dict ;;
  py_get d "attributes" empty_dict.

(** [attrs.get("status", "unknown")] *)
Definition tracking_status (attrs : json) : exn + json :=
  py_get attrs "status" (JStr (lit "unknown")).

(** [tr_data.get("data", {}).get("relationships", {})
       .get("tracked_object", {}).get("data")] *)
Definition tracked_object (tr_data : json) : exn + json :=
  d <~ py_get tr_data "data" empty_dict ;;
  rel <~ py_get d "relationships" empty_dict ;;
  t <~ py_get rel "tracked_object" empty_dict ;;
  py_get t "data" JNull.

(** [not tracked_obj or not tracked_obj.get("id")] *)
Definition not_linked (tracked_obj : json) : exn + bool :=
  if negb (truthy tracked_obj) then inr true
  else
    i <~ py_get tracked_obj "id" JNull ;;
    inr (negb (truthy i)).

(** [ship_resp.json().get("data", {}) if ship_resp.status_code == 200 else {}] *)
Definition shipment_of (ship_resp : response) : exn + json :=
  if status_code ship_resp =? 200 then
    b <~ json_of ship_resp ;;
    py_get b "data" empty_dict
  else inr empty_dict.

(** [shipment.get("relationships", {}).get("containers", {}).get("data", [])] *)
Definition container_refs (shipment : json) : exn + json :=
  rel <~ py_get shipment "relationships" empty_dict ;;
  c <~ py_get rel "containers" empty_dict ;;
  py_get c "data" (JList []).

(** The normalized container record appended to [containers]. *)
Definition container_record (c_data c_attrs : json) : exn + json :=
  id <~ py_get c_data "id" JNull ;;
  number <~ py_get c_attrs "number" (JStr []) ;;
  seal_number <~ py_get c_attrs "seal_number" (JStr []) ;;
  equipment_type <~ py_get c_attrs "equipment_type" (JStr []) ;;
  equipment_length <~ py_get c_attrs "equipment_length" (JStr []) ;;
  weight_kg <~ py_get c_attrs "weight_in_lbs" JNull ;;
  status <~ py_get c_attrs "status" (JStr []) ;;
  pod_arrived_at <~ py_get c_attrs "pod_arrived_at" JNull ;;
  pod_discharged_at <~ py_get c_attrs "pod_discharged_at" JNull ;;
  pod_full_out_at <~ py_get c_attrs "pod_full_out_at" JNull ;;
  pol_loaded_at <~ py_get c_attrs "pol_loaded_at" JNull ;;
  pol_etd_at <~ py_get c_attrs "pol_etd_at" JNull ;;
  pod_eta_at <~ py_get c_attrs "pod_eta_at" JNull ;;
  pickup_lfd <~ py_get c_attrs "pickup_lfd" JNull ;;
  holds_at_pod_terminal <~ py_get c_attrs "holds_at_pod_terminal" JNull ;;
  fees_at_pod_terminal <~ py_get c_attrs "fees_at_pod_terminal" JNull ;;
  inr (JDict [ (lit "id", id);
               (lit "number", number);
               (lit "seal_number", seal_number);
               (lit "equipment_type", equipment_type);
               (lit "equipment_length", equipment_length);
               (lit "weight_kg", weight_kg);
               (lit "status", status);
               (lit "pod_arrived_at", pod_arrived_at);
               (lit "pod_discharged_at", pod_discharged_at);
               (lit "pod_full_out_at", pod_full_out_at);
               (lit "pol_loaded_at", pol_loaded_at);
               (lit "pol_etd_at", pol_etd_at);
               (lit "pod_eta_at", pod_eta_at);
               (lit "pickup_lfd", pickup_lfd);
               (lit "holds_at_pod_terminal", holds_at_pod_terminal);
               (lit "fees_at_pod_terminal", fees_at_pod_terminal);
               (lit "raw", c_attrs) ]).

(** Step 4 of the poller: the [for cref in container_refs] loop, with
    [containers] the list built so far. *)
Fixpoint fetch_containers (crefs : list json) (containers : list json)
  : M (list json) :=
  match crefs with
  | [] => ret containers
  | cref :: rest =>
      cid <- lift (py_get cref "id" JNull) ;;
      if truthy cid then
        c_resp <- call net (ReadContainer cid) ;;
        if status_code c_resp =? 200 then
          c_body <- lift (json_of c_resp) ;;
          c_data <- lift (py_get c_body "data" empty_dict) ;;
          c_attrs <- lift (py_get c_data "attributes" empty_dict) ;;
          record <- lift (container_record c_data c_attrs) ;;
          fetch_containers rest (containers ++ [record])
        else fetch_containers rest containers
      else fetch_containers rest containers
  end.

(** Step 5 of the poller: [shipment_summary]. *)
Definition shipment_summary (shipment s_attrs : json) : exn + json :=
  id <~ py_get shipment "id" JNull ;;
  bol_number <~ py_get s_attrs "bill_of_lading_number" JNull ;;
  shipping_line <~ py_get s_attrs "shipping_line_name" JNull ;;
  scac <~ py_get s_attrs "shipping_line_scac" JNull ;;
  vessel <~ py_get s_attrs "pod_vessel_name" JNull ;;
  voyage <~ py_get s_attrs "pod_voyage_number" JNull ;;
  pol_name <~ py_get s_attrs "port_of_lading_name" JNull ;;
  pol_locode <~ py_get s_attrs "port_of_lading_locode" JNull ;;
  pod_name <~ py_get s_attrs "port_of_discharge_name" JNull ;;
  pod_locode <~ py_get s_attrs "port_of_discharge_locode" JNull ;;
  destination <~ py_get s_attrs "destination_name" JNull ;;
  pol_etd <~ py_get s_attrs "pol_etd_at" JNull ;;
  pol_atd <~ py_get s_attrs "pol_atd_at" JNull ;;
  pod_eta <~ py_get s_attrs "pod_eta_at" JNull ;;
  pod_ata <~ py_get s_attrs "pod_ata_at" JNull ;;
  status <~ py_get s_attrs "status" JNull ;;
  inr (JDict [ (lit "id", id);
               (lit "bol_number", bol_number);
               (lit "shipping_line", shipping_line);
               (lit "scac", scac);
               (lit "vessel", vessel);
               (lit "voyage", voyage);
               (lit "pol_name", pol_name);
               (lit "pol_locode", pol_locode);
               (lit "pod_name", pod_name);
               (lit "pod_locode", pod_locode);
               (lit "destination", destination);
               (lit "pol_etd", pol_etd);
               (lit "pol_atd", pol_atd);
               (lit "pod_eta", pod_eta);
               (lit "pod_ata", pod_ata);
               (lit "status", status) ]).

Definition pending_message : str :=
  lit "Terminal49 is still fetching data. Poll again in 3-5 seconds.".

Definition not_linked_message : str :=
  lit "Processed but no shipment linked yet. Try again shortly.".

(** Steps 3 to 5 and the final [return]. *)
Definition poll_shipment (shipment_id : json) : M json :=
  ship_resp <- call net (ReadShipment shipment_id) ;;
  shipment <- lift (shipment_of ship_resp) ;;
  refs <- lift (container_refs shipment) ;;
  crefs <- lift (py_iter refs) ;;
  containers <- fetch_containers crefs [] ;;
  s_attrs <- lift (py_get shipment "attributes" empty_dict) ;;
  summary <- lift (shipment_summary shipment s_attrs) ;;
  ret (JDict [ (lit "success", JBool true);
               (lit "tracking_status", JStr (lit "succeeded"));
               (lit "shipment", summary);
               (lit "containers", JList containers);
               (lit "containerCount", JInt (Z.of_nat (List.length containers))) ]).

(** The [try] block of [poll_tracking_request]. *)
Definition poll_tracking_request_try (request_id : str) : M json :=
  resp <- call net (ReadTrackingRequest request_id) ;;
  if negb (status_code resp =? 200) then
    data <- lift (json_of resp) ;;
    ret (JDict [ (lit "success", JBool false);
                 (lit "status", JInt (status_code resp));
                 (lit "data", data) ])
  else
    tr_data <- lift (json_of resp) ;;
    attrs <- lift (tracking_attrs tr_data) ;;
    status <- lift (tracking_status attrs) ;;
    if eq_str status (lit "pending") then
      ret (JDict [ (lit "success", JBool true);
                   (lit "tracking_status", JStr (lit "pending"));
                   (lit "message", JStr pending_message) ])
    else if eq_str status (lit "failed") then
      reason <- lift (py_get attrs "failed_reason" (JStr (lit "Unknown error"))) ;;
      ret (JDict [ (lit "success", JBool false);
                   (lit "tracking_status", JStr (lit "failed"));
                   (lit "reason", reason) ])
    else
      tracked_obj <- lift (tracked_object tr_data) ;;
      unlinked <- lift (not_linked tracked_obj) ;;
      if (unlinked : bool) then
        ret (JDict [ (lit "success", JBool true);
                     (lit "tracking_status", status);
                     (lit "message", JStr not_linked_message) ])
      else
        shipment_id <- lift (py_getitem tracked_obj "id") ;;
        poll_shipment shipment_id.

Definition poll_tracking_request (request_id : str) : result :=
  if not_configured then
    ([], inl (HTTPException 503 (lit "API key not configured")))
  else
    except_504_502 (lit "Timeout polling Terminal49")
      (poll_tracking_request_try request_id []).

(** *** GET /api/track/shipments/search *)

(** The inner [for cref in container_refs] loop of the search: containers
    are appended in their upstream form. *)
Fixpoint search_containers (crefs : list json) (containers : list json)
  : M (list json) :=
  match crefs with
  | [] => ret containers
  | cref :: rest =>
      cid <- lift (py_get cref "id" JNull) ;;
      if truthy cid then
        c_resp <- call net (ReadContainer cid) ;;
        if status_code c_resp =? 200 then
          c_body <- lift (json_of c_resp) ;;
          c_data <- lift (py_get c_body "data" empty_dict) ;;
          search_containers rest (containers ++ [c_data])
        else search_containers rest containers
      else search_containers rest containers
  end.

(** The entry appended to [results] for one shipment. *)
Definition search_entry (ship s_attrs : json) (containers : list json)
  : exn + json :=
  id <~ py_get ship "id" JNull ;;
  bol_number <~ py_get s_attrs "bill_of_lading_number" JNull ;;
  vessel <~ py_get s_attrs "pod_vessel_name" JNull ;;
  pol_name <~ py_get s_attrs "port_of_lading_name" JNull ;;
  pod_name <~ py_get s_attrs "port_of_discharge_name" JNull ;;
  pod_eta <~ py_get s_attrs "pod_eta_at" JNull ;;
  status <~ py_get s_attrs "status" JNull ;;
  inr (JDict [ (lit "shipment",
                JDict [ (lit "id", id);
                        (lit "bol_number", bol_number);
                        (lit "vessel", vessel);
                        (lit "pol_name", pol_name);
                        (lit "pod_name", pod_name);
                        (lit "pod_eta", pod_eta);
                        (lit "status", status) ]);
               (lit "containers", JList containers);
               (lit "containerCount", JInt (Z.of_nat (List.length containers))) ]).

(** The outer [for ship in shipments] loop. *)
Fixpoint search_shipments (shipments : list json) (results : list json)
  : M (list json) :=
  match shipments with
  | [] => ret results
  | ship :: rest =>
      refs <- lift (container_refs ship) ;;
      crefs <- lift (py_iter refs) ;;
      containers <- search_containers crefs [] ;;
      s_attrs <- lift (py_get ship "attributes" empty_dict) ;;
      entry <- lift (search_entry ship s_attrs containers) ;;
      search_shipments rest (results ++ [entry])
  end.

(** The [try] block of [search_shipments_by_bol]. *)
Definition search_shipments_by_bol_try (bol : str) : M json :=
  resp <- call net (SearchShipments (strip bol)) ;;
  data <- lift (json_of resp) ;;
  shipments <- lift (py_get data "data" (JList [])) ;;
  ships <- lift (py_iter shipments) ;;
  results <- search_shipments ships [] ;;
  ret (JDict [ (lit "success", JBool true);
               (lit "results", JList results);
               (lit "totalShipments", JInt (Z.of_nat (List.length results))) ]).

Definition search_shipments_by_bol (bol : str) : result :=
  if not_configured then
    ([], inl (HTTPException 503 (lit "API key not configured")))
  else
    except_502 (search_shipments_by_bol_try bol []).

End Handlers.

Arguments TERMINAL49_API_KEY env_api_key /.
Arguments not_configured env_api_key /.

(* ------------------------------------------------------------------------- *)
(** ** Vocabulary of the statements *)
(* ------------------------------------------------------------------------- *)

(** The credential is unset, or set to the documented placeholder. *)
Definition credential_missing (env_api_key : option str) : Prop :=
  env_api_key = None \/ env_api_key = Some YOUR_API_KEY_HERE.

(** A booking reference that is empty or made of whitespace only. *)
Definition blank (s : str) : Prop := s = [] \/ forallb isspace s = true.

(** [needle] occurs in [hay]. *)
Definition occurs_in (needle hay : str) : Prop :=
  exists pre post, hay = pre ++ needle ++ post.

(** The identifiers of the relationship entries that carry one: those the
    loop's [if cid:] lets through. *)
Definition present_ids (crefs : list json) : list json :=
  flat_map (fun cref =>
              match py_get cref "id" JNull with
              | inr cid => if truthy cid then [cid] else []
              | inl _ => []
              end) crefs.

(** The call returned HTTP 200. *)
Definition returned_200 (ev : event) : bool :=
  match snd ev with
  | Returned r => Z.eqb (status_code r) 200
  | Raised _ => false
  end.

(** The attribute object of a fetched container body:
    [c_resp.json().get("data", {}).get("attributes", {})]. *)
Definition upstream_attrs (r : response) : exn + json :=
  (c_body <~ json_of r ;;
   c_data <~ py_get c_body "data" empty_dict ;;
   py_get c_data "attributes" empty_dict)%py.

(** The normalized record the poller builds from a fetched container. *)
Definition record_of (r : response) : exn + json :=
  (c_body <~ json_of r ;;
   c_data <~ py_get c_body "data" empty_dict ;;
   c_attrs <~ py_get c_data "attributes" empty_dict ;;
   container_record c_data c_attrs)%py.

Definition record_of_event (ev : event) : option json :=
  match snd ev with
  | Returned r =>
      match record_of r with
      | inr rec => Some rec
      | inl _ => None
      end
  | Raised _ => None
  end.

(** [d.get(k)] on a dict given as its field list. *)
Definition get_or_null (d : list (str * json)) (k : string) : json :=
  match lookup d (lit k) with
  | Some v => v
  | None => JNull
  end.

(** The summary of an empty shipment: every field is [None]. *)
Definition empty_shipment_summary : json :=
  JDict [ (lit "id", JNull); (lit "bol_number", JNull);
          (lit "shipping_line", JNull); (lit "scac", JNull);
          (lit "vessel", JNull); (lit "voyage", JNull);
          (lit "pol_name", JNull); (lit "pol_locode", JNull);
          (lit "pod_name", JNull); (lit "pod_locode", JNull);
          (lit "destination", JNull); (lit "pol_etd", JNull);
          (lit "pol_atd", JNull); (lit "pod_eta", JNull);
          (lit "pod_ata", JNull); (lit "status", JNull) ].

(** A computation is well traced for [P] when it only appends to the trace,
    every call it appends is one of [P], and a call that raised ends it with
    that very exception. *)
Definition well_traced {A} (P : request -> Prop) (m : M A) : Prop :=
  forall h h' r,
    m h = (h', r) ->
    exists evs,
      h' = h ++ evs
      /\ Forall (fun ev => P (fst ev)) evs
      /\ forall rq e, In (rq, Raised e) evs -> r = inl e.

Definition is_container_read (rq : request) : Prop :=
  exists cid, rq = ReadContainer cid.

(* ------------------------------------------------------------------------- *)
(** ** Scenarios: concrete providers and requests *)
(* ------------------------------------------------------------------------- *)

Module Scenario.

Local Open Scope string_scope.
Local Open Scope Z_scope.

Definition obj (fields : list (string * json)) : json :=
  JDict (map (fun kv => (lit (fst kv), snd kv)) fields).

Definition text (x : string) : json := JStr (lit x).

(** A configured credential. *)
Definition live_key : option str := Some (lit "t49-live-key").

(** A provider that answers every call with the same response. *)
Definition always (r : response) : upstream := fun _ _ => Returned r.

(** A provider that cannot be reached. *)
Definition unreachable : upstream :=
  fun _ _ => Raised (Exn false (lit "All connection attempts failed")).

Definition booking (ref name : string) : TrackBookingRequest :=
  {| bookingRef := lit ref; carrier := lit name |}.

(** An upstream error page that is not JSON. *)
Definition html_500 : response :=
  Response 500 (inl (lit "Expecting value: line 1 column 1 (char 0)")).

Definition duplicate_422 : response :=
  Response 422 (inr (obj [("errors", JList [obj [("status", text "422")]])])).

(** A tracking request resolved to shipment S. *)
Definition tracking_body (status : string) : json :=
  obj [("data",
        obj [("id", text "tr-1");
             ("attributes", obj [("status", text status)]);
             ("relationships",
              obj [("tracked_object",
                    obj [("data", obj [("id", text "S"); ("type", text "shipment")])])])])].

(** Shipment S with container references C1 and C2. *)
Definition shipment_data : json :=
  obj [("id", text "S");
       ("attributes", obj [("bill_of_lading_number", text "BOL1")]);
       ("relationships",
        obj [("containers",
              obj [("data", JList [obj [("id", text "C1")]; obj [("id", text "C2")]])])])].

(** Container C1: its attributes carry a weight and a field the record does
    not name, and none of the other named fields. *)
Definition c1_attrs : json :=
  obj [("weight_in_lbs", JInt 4200); ("custom_field", text "x")].

Definition c1_body : json :=
  obj [("data", obj [("id", text "C1"); ("attributes", c1_attrs)])].

Definition not_found_404 : response :=
  Response 404 (inr (obj [("errors", JList [])])).

(** Shipment S resolves; C1 is fetched, C2 answers 404. *)
Definition second_container_404 : upstream :=
  fun _ rq =>
    match rq with
    | ReadTrackingRequest _ => Returned (Response 200 (inr (tracking_body "succeeded")))
    | ReadShipment _ => Returned (Response 200 (inr (obj [("data", shipment_data)])))
    | ReadContainer cid =>
        if eq_str cid (lit "C1") then Returned (Response 200 (inr c1_body))
        else Returned not_found_404
    | SearchShipments _ => Returned (Response 200 (inr (obj [("data", JList [shipment_data])])))
    | CreateTrackingRequest _ => Returned duplicate_422
    end.

(** The tracking request is still pending. *)
Definition still_pending : upstream :=
  always (Response 200 (inr (tracking_body "pending"))).

(** The tracking request resolves to S, but reading S answers 500 with a
    body that is not JSON. *)
Definition shipment_500 : upstream :=
  fun _ rq =>
    match rq with
    | ReadTrackingRequest _ => Returned (Response 200 (inr (tracking_body "succeeded")))
    | _ => Returned html_500
    end.

(** The search finds S and C1 is fetched, then the fetch of C2 times out. *)
Definition second_container_times_out : upstream :=
  fun h rq =>
    match rq with
    | ReadContainer cid =>
        if eq_str cid (lit "C1") then Returned (Response 200 (inr c1_body))
        else Raised (Exn true (lit "timed out"))
    | _ => second_container_404 h rq
    end.

End Scenario.

(* ------------------------------------------------------------------------- *)
(** ** HELPERS and DEAL ENDPOINTS: the flat-file deal store *)
(* ------------------------------------------------------------------------- *)

(** The state of [DATA_FILE], as the handlers can observe it.
    - [Missing]: [DATA_FILE.exists()] returns [False].
    - [Stored c]: [DATA_FILE.exists()] returns [True], and [c] is what
      [json.loads(DATA_FILE.read_text("utf-8"))] gives: the decoded value, or
      ([inl]) the message of the exception that reading or decoding raises.
    - [StatFails e]: [DATA_FILE.exists()] itself raises [e] (an [OSError]
      other than the ones [pathlib] takes for "no such file": a directory
      that cannot be searched, a name that is too long).
    Writing [json.dumps(v)] to the file makes it hold [v]. *)
Inductive data_file : Type :=
| Missing
| Stored (c : str + json)
| StatFails (e : exn).

(** What the three file operations of [write_deals] (mkdir, write_text and
    the read back) do when asked to store a value: they all succeed, or one
    of them raises and leaves the file in some state. *)
Inductive write_outcome : Type :=
| Written
| WriteFailed (e : exn) (left_behind : data_file).

(** The file system answers a write knowing the state of the file and the
    value to store. *)
Definition disk : Type := data_file -> json -> write_outcome.

(** [len(v)].  Numbers, booleans and [None] have no length; a dict is listed
    with one entry per key. *)
Definition py_len (v : json) : exn + Z :=
  match v with
  | JList items => inr (Z.of_nat (List.length items))
  | JDict d => inr (Z.of_nat (List.length d))
  | JStr s => inr (Z.of_nat (List.length s))
  | _ => inl (Exn false (lit "object of type '" ++ type_name v
                         ++ lit "' has no len()"))
  end.

(** [s.endswith(suffix)] *)
Definition endswith (s suffix : str) : bool :=
  str_eqb (skipn (List.length s - List.length suffix) s) suffix.

(** [read_deals()].  The call of [DATA_FILE.exists()] is outside the [try]:
    an exception it raises leaves [read_deals].  Otherwise the result is the
    stored value, and [[]] when the file is missing, cannot be read or
    decoded, or holds a falsy value. *)
Definition read_deals (f : data_file) : exn + json :=
  match f with
  | StatFails e => inl e
  | Missing => inr (JList [])
  | Stored (inl _) => inr (JList [])
  | Stored (inr v) => inr (if truthy v then v else JList [])
  end.

(** The dict [write_deals] returns:
    [{"success": True, "count": n, "path": p}] or
    [{"success": False, "error": msg}]. *)
Inductive write_result : Type :=
| WriteOk (count : Z) (path : str)
| WriteError (error : str).

Definition write_result_json (r : write_result) : json :=
  match r with
  | WriteOk count path =>
      JDict [ (lit "success", JBool true); (lit "count", JInt count);
              (lit "path", JStr path) ]
  | WriteError error =>
      JDict [ (lit "success", JBool false); (lit "error", JStr error) ]
  end.

(** What a deal endpoint answers: a JSON body, a raised [HTTPException], or
    an exception no handler catches. *)
Inductive reply : Type :=
| Replied (v : json)
| HttpError (e : http_exception)
| Unhandled (e : exn).

(** [UploadFile]: its [filename], and what
    [json.loads(await file.read())] gives. *)
Inductive loads_outcome : Type :=
| Loaded (data : json)
| JSONDecodeError (msg : str)
| LoadsRaised (e : exn).

Record UploadFile : Type :=
  { filename : option str;
    content : loads_outcome }.

(** [FileResponse(path, media_type=..., filename=...)] *)
Record FileResponse : Type :=
  { response_path : str;
    media_type : str;
    download_name : str }.

(** What the export endpoint answers: the file response, a raised
    [HTTPException], or an exception no handler catches. *)
Inductive export_reply : Type :=
| Served (r : FileResponse)
| ExportHttpError (e : http_exception)
| ExportUnhandled (e : exn).

Section DealStore.

Local Open Scope py_scope.
Local Open Scope Z_scope.

Variable io : disk.

(** [str(DATA_FILE)] *)
Variable DATA_FILE : str.

(** [write_deals(deals)] on the file state [f]: the new state and the
    returned dict. *)
Definition write_deals (f : data_file) (deals : json)
  : data_file * write_result :=
  match io f deals with
  | WriteFailed e f' => (f', WriteError (exn_str e))
  | Written =>
      let verify := deals in
      match py_len verify with
      | inr count => (Stored (inr deals), WriteOk count DATA_FILE)
      | inl e => (Stored (inr deals), WriteError (exn_str e))
      end
  end.

(** GET /api/deals *)
Definition get_deals (f : data_file) : reply :=
  match read_deals f with
  | inl e => Unhandled e
  | inr deals =>
      match py_len deals with
      | inr count =>
          Replied (JDict [ (lit "success", JBool true); (lit "deals", deals);
                           (lit "count", JInt count) ])
      | inl e => Unhandled e
      end
  end.

(** POST /api/deals *)
Definition save_deals (f : data_file) (deals : list json)
  : data_file * reply :=
  let '(f', result) := write_deals f (JList deals) in
  match result with
  | WriteError error => (f', HttpError (HTTPException 500 error))
  | WriteOk _ _ => (f', Replied (write_result_json result))
  end.

(** GET /api/deals/export, with [stamp] the value of
    [datetime.utcnow().strftime('%Y%m%d_%H%M%S')]. *)
Definition export_deals (f : data_file) (stamp : str) : export_reply :=
  match f with
  | StatFails e => ExportUnhandled e
  | Missing => ExportHttpError (HTTPException 404 (lit "No deals file found"))
  | Stored _ =>
      Served {| response_path := DATA_FILE;
                media_type := lit "application/json";
                download_name :=
                  lit "TireTrade_Backup_" ++ stamp ++ lit ".json" |}
  end.

(** POST /api/deals/import *)
Definition import_deals (f : data_file) (file : UploadFile)
  : data_file * reply :=
  match filename file with
  | None =>
      (f, Unhandled
            (Exn false (lit "'NoneType' object has no attribute 'endswith'")))
  | Some name =>
      if negb (endswith name (lit ".json")) then
        (f, HttpError (HTTPException 400 (lit "Only .json files accepted")))
      else
        match content file with
        | Loaded (JList items) =>
            let '(f', result) := write_deals f (JList items) in
            match result with
            | WriteError error => (f', HttpError (HTTPException 500 error))
            | WriteOk _ _ =>
                (f', Replied (JDict [ (lit "success", JBool true);
                                      (lit "count",
                                       JInt (Z.of_nat (List.length items))) ]))
            end
        | Loaded _ =>
            (f, HttpError (HTTPException 400 (lit "JSON must be an array of deals")))
        | JSONDecodeError _ =>
            (f, HttpError (HTTPException 400 (lit "Invalid JSON file")))
        | LoadsRaised e => (f, Unhandled e)
        end
  end.

(** [startup_seed()]: the state of the file after startup, and the
    exception that startup ends in, if any.  With no file, the result of
    [write_deals([])] is dropped.  With a file, the [else] branch formats
    [len(read_deals())] into the message it prints. *)
Definition startup_seed (f : data_file) : data_file * option exn :=
  match f with
  | StatFails e => (f, Some e)
  | Missing => (fst (write_deals Missing (JList [])), None)
  | Stored _ =>
      match read_deals f with
      | inl e => (f, Some e)
      | inr deals =>
          match py_len deals with
          | inl e => (f, Some e)
          | inr _ => (f, None)
          end
      end
  end.

End DealStore.

(* ------------------------------------------------------------------------- *)
(** ** Further vocabulary *)
(* ------------------------------------------------------------------------- *)

(** [s] neither starts nor ends with a whitespace character. *)
Definition trimmed (s : str) : Prop :=
  match s with
  | c :: _ => isspace c = false
  | [] => True
  end
  /\ match rev s with
     | c :: _ => isspace c = false
     | [] => True
     end.

(** The [HTTPException] the poller and the submitter raise for an exception
    [e] of their [try] block. *)
Definition raised_as (timeout_detail : str) (e : exn) : http_exception :=
  if is_timeout e then HTTPException 504 timeout_detail
  else HTTPException 502 (exn_str e).

(** The container a search entry carries for a fetched container body:
    [c_resp.json().get("data", {})]. *)
Definition raw_data_of (r : response) : exn + json :=
  (c_body <~ json_of r ;; py_get c_body "data" empty_dict)%py.

Definition raw_data_of_event (ev : event) : option json :=
  match snd ev with
  | Returned r =>
      match raw_data_of r with
      | inr d => Some d
      | inl _ => None
      end
  | Raised _ => None
  end.

(** The keys of a normalized container record, in order. *)
Definition container_record_keys : list str :=
  map lit
    [ "id"; "number"; "seal_number"; "equipment_type"; "equipment_length";
      "weight_kg"; "status"; "pod_arrived_at"; "pod_discharged_at";
      "pod_full_out_at"; "pol_loaded_at"; "pol_etd_at"; "pod_eta_at";
      "pickup_lfd"; "holds_at_pod_terminal"; "fees_at_pod_terminal";
      "raw" ]%string.

(** The stored value has a length: it is not a non-zero number or [True]. *)
Definition sized_or_falsy (v : json) : bool :=
  match v with
  | JList _ | JDict _ | JStr _ => true
  | _ => negb (truthy v)
  end.

(** One entry of the search results against the upstream shipment it was
    built from: the entry carries the shipment's [id], a list of containers
    and its length. *)
Definition entry_of (ship entry : json) : Prop :=
  exists summary containers,
    entry = JDict [ (lit "shipment", summary);
                    (lit "containers", JList containers);
                    (lit "containerCount",
                     JInt (Z.of_nat (List.length containers))) ]
    /\ (exists d, ship = JDict d /\ field summary "id" = Some (get_or_null d "id")).

(** A container of a search entry is the [data] of a container read that
    returned 200. *)
Definition from_a_200_read (evs : list event) (c : json) : Prop :=
  exists cid c_resp,
    In (ReadContainer cid, Returned c_resp) evs
    /\ status_code c_resp = 200%Z
    /\ raw_data_of c_resp = inr c.

Module DealScenario.

Local Open Scope string_scope.
Local Open Scope Z_scope.

(** A file system on which every write succeeds. *)
Definition reliable : disk := fun _ _ => Written.

(** A full disk: every write raises and leaves the file as it was. *)
Definition full : disk :=
  fun f _ => WriteFailed (Exn false (lit "[Errno 28] No space left on device")) f.

Definition path : str := lit "tire_deals.json".

Definition deal (id : string) : json :=
  Scenario.obj [("id", Scenario.text id); ("tons", JInt 24)].

Definition two_deals : list json := [deal "D1"; deal "D2"].

Definition upload (name : string) (c : loads_outcome) : UploadFile :=
  {| filename := Some (lit name); content := c |}.

End DealScenario.

Module RecordScenario.

Local Open Scope string_scope.
Local Open Scope Z_scope.

(** Container C2: a weight, a number and a seal number. *)
Definition c2_attrs : json :=
  Scenario.obj [("number", Scenario.text "MSKU2222222");
                ("seal_number", Scenario.text "SL-2");
                ("weight_in_lbs", JInt 100)].

Definition c2_body : json :=
  Scenario.obj [("data", Scenario.obj [("id", Scenario.text "C2");
                                       ("attributes", c2_attrs)])].

(** Shipment S resolves and both of its containers are fetched. *)
Definition both_containers_200 : upstream :=
  fun h rq =>
    match rq with
    | ReadContainer cid =>
        if eq_str cid (lit "C1") then Returned (Response 200 (inr Scenario.c1_body))
        else Returned (Response 200 (inr c2_body))
    | _ => Scenario.second_container_404 h rq
    end.

End RecordScenario.

Module TrackingScenario.

Local Open Scope string_scope.
Local Open Scope Z_scope.

(** The tracking request failed upstream, with a reason. *)
Definition failed_body : json :=
  Scenario.obj
    [("data",
      Scenario.obj
        [("id", Scenario.text "tr-1");
         ("attributes",
          Scenario.obj [("status", Scenario.text "failed");
                        ("failed_reason", Scenario.text "carrier rejected")])])].

Definition failed_with_reason : upstream :=
  Scenario.always (Response 200 (inr failed_body)).

(** The provider rejects the credential. *)
Definition unauthorized_401 : response :=
  Response 401 (inr (Scenario.obj [("errors", JList [Scenario.text "Unauthorized"])])).

Definition unauthorized : upstream := Scenario.always unauthorized_401.

(** The tracking request was created, no shipment is linked yet. *)
Definition created_body : json :=
  Scenario.obj
    [("data",
      Scenario.obj
        [("id", Scenario.text "tr-1");
         ("attributes", Scenario.obj [("status", Scenario.text "created")])])].

Definition not_yet_linked : upstream :=
  Scenario.always (Response 200 (inr created_body)).

(** No shipment matches the search. *)
Definition no_matches : upstream :=
  Scenario.always (Response 200 (inr (Scenario.obj [("data", JList [])]))).

End TrackingScenario.

(* ========================================================================= *)
(** * Properties *)
(* ========================================================================= *)

(** ** Strings *)

Lemma str_eqb_eq (a b : str) : str_eqb a b = true <-> a = b.
Proof.
  revert b; induction a as [|x a IH]; intros [|y b]; simpl; split;
    try congruence; try discriminate.
  - intros H. apply andb_true_iff in H as [Hx Ha].
    apply N.eqb_eq in Hx. apply IH in Ha. congruence.
  - intros H. injection H as -> ->.
    rewrite N.eqb_refl. simpl. now apply IH.
Qed.

Lemma str_eqb_refl (a : str) : str_eqb a a = true.
Proof. now apply str_eqb_eq. Qed.

Lemma str_eqb_neq (a b : str) : str_eqb a b = false <-> a <> b.
Proof.
  split.
  - intros H E. apply str_eqb_eq in E. congruence.
  - intros H. destruct (str_eqb a b) eqn:E; [|reflexivity].
    apply str_eqb_eq in E. contradiction.
Qed.

Lemma lstrip_nil_iff (s : str) : lstrip s = [] <-> forallb isspace s = true.
Proof.
  induction s as [|c s IH]; simpl.
  - tauto.
  - destruct (isspace c); simpl.
    + exact IH.
    + split; discriminate.
Qed.

Lemma lstrip_keeps_nonspace (s : str) :
  forallb isspace (lstrip s) = forallb isspace s.
Proof.
  induction s as [|c s IH]; simpl; [reflexivity|].
  destruct (isspace c) eqn:E; simpl.
  - exact IH.
  - now rewrite E.
Qed.

Lemma forallb_rev {A} (p : A -> bool) (l : list A) :
  forallb p (rev l) = forallb p l.
Proof.
  induction l as [|x l IH]; simpl; [reflexivity|].
  rewrite forallb_app, IH. simpl. rewrite andb_true_r. apply andb_comm.
Qed.

Lemma rstrip_nil_iff (s : str) : rstrip s = [] <-> forallb isspace s = true.
Proof.
  unfold rstrip. rewrite <- (forallb_rev isspace s), <- lstrip_nil_iff.
  split; intros H.
  - apply (f_equal (@rev N)) in H. now rewrite rev_involutive in H.
  - now rewrite H.
Qed.

(** [s.strip()] is empty exactly when [s] holds whitespace only. *)
Lemma strip_nil_iff (s : str) : strip s = [] <-> forallb isspace s = true.
Proof.
  unfold strip. rewrite rstrip_nil_iff. now rewrite lstrip_keeps_nonspace.
Qed.

(** The first guard of [track_by_booking] fires exactly on blank references. *)
Lemma blank_guard (s : str) :
  negb (str_truthy s) || negb (str_truthy (strip s)) = true <-> blank s.
Proof.
  unfold blank. split.
  - intros H. right. apply strip_nil_iff.
    destruct (strip s) eqn:E; [reflexivity|].
    destruct s; simpl in H; [discriminate E|discriminate H].
  - intros [-> | H]; [reflexivity|].
    apply strip_nil_iff in H. rewrite H. simpl. apply orb_true_r.
Qed.

Lemma join_occurs (sep name : str) (xs : list str) :
  In name xs -> occurs_in name (join sep xs).
Proof.
  induction xs as [|x xs IH]; [contradiction|].
  intros [-> | H].
  - destruct xs as [|y ys].
    + exists [], []. simpl. now rewrite app_nil_r.
    + exists [], (sep ++ join sep (y :: ys)). reflexivity.
  - destruct (IH H) as (pre & post & E).
    destruct xs as [|y ys]; [contradiction|].
    exists (x ++ sep ++ pre), post.
    change (join sep (x :: y :: ys)) with (x ++ sep ++ join sep (y :: ys)).
    rewrite E. now rewrite <- !app_assoc.
Qed.

Lemma lookup_none_iff {A} (d : list (str * A)) (k : str) :
  lookup d k = None <-> ~ In k (map fst d).
Proof.
  induction d as [|[k' v] d IH]; simpl.
  - tauto.
  - destruct (str_eqb k' k) eqn:E.
    + apply str_eqb_eq in E. split; [discriminate | tauto].
    + apply str_eqb_neq in E. rewrite IH. tauto.
Qed.

Lemma credential_missing_not_configured (k : option str) :
  credential_missing k <-> not_configured k = true.
Proof.
  unfold credential_missing, not_configured, TERMINAL49_API_KEY, getenv.
  destruct k as [v|].
  - rewrite str_eqb_eq. split.
    + intros [H | H]; [discriminate | congruence].
    + intros ->. now right.
  - rewrite str_eqb_refl. split; [reflexivity | now left].
Qed.

(** ** The submitter: [track_by_booking] *)

Lemma not_blank_passes (s : str) :
  ~ blank s -> negb (str_truthy s) || negb (str_truthy (strip s)) = false.
Proof.
  intros H.
  destruct (negb (str_truthy s) || negb (str_truthy (strip s))) eqn:E;
    [|reflexivity].
  apply blank_guard in E. contradiction.
Qed.

(** One upstream call at most: the trace of a submission is empty or holds
    the single create-tracking-request call, with the provider's answer. *)
Lemma track_by_booking_trace k net req :
  fst (track_by_booking k net req) = []
  \/ exists scac,
       lookup SCAC_MAP (carrier req) = Some scac /\
       let rq := CreateTrackingRequest
                   (tracking_payload (strip (bookingRef req)) scac) in
       track_by_booking k net req =
         except_504_502 (lit "Terminal49 request timed out")
           (track_by_booking_try net
              (tracking_payload (strip (bookingRef req)) scac) [])
       /\ fst (track_by_booking k net req) = [(rq, net [] rq)].
Proof.
  unfold track_by_booking.
  destruct (negb (str_truthy (bookingRef req)) || _); [now left|].
  destruct (not_configured k); [now left|].
  destruct (lookup SCAC_MAP (carrier req)) as [scac|] eqn:L; [|now left].
  destruct (negb (str_truthy scac)); [now left|].
  right. exists scac. split; [reflexivity|]. split; [reflexivity|].
  unfold track_by_booking_try, bind, call, lift, ret. simpl.
  destruct (net [] _) as [resp|e]; simpl.
  - destruct (json_of resp); simpl.
    + now destruct (is_timeout e).
    + now destruct (status_code resp =? 422)%Z.
  - now destruct (is_timeout e).
Qed.

(** C5. A booking reference that is empty or whitespace-only makes the
    submission fail with [HTTPException(400, "Booking reference is required")]
    (InvalidInput) and an empty trace: no upstream call is attempted, whatever
    the carrier, the credential and the provider are. *)
Theorem blank_booking_ref_rejected
    (k : option str) (net : upstream) (req : TrackBookingRequest) :
  blank (bookingRef req) ->
  track_by_booking k net req
  = ([], inl (HTTPException 400 (lit "Booking reference is required"))).
Proof.
  intros H. apply blank_guard in H.
  unfold track_by_booking. now rewrite H.
Qed.

Lemma blank_booking_ref_rejected_witness :
  blank [32; 9; 10; 160; 12288]%N
  /\ track_by_booking None Scenario.unreachable
       {| bookingRef := [32; 9; 10; 160; 12288]%N; carrier := lit "Nobody" |}
     = ([], inl (HTTPException 400 (lit "Booking reference is required"))).
Proof.
  split.
  - right. reflexivity.
  - apply (blank_booking_ref_rejected None Scenario.unreachable
             {| bookingRef := [32; 9; 10; 160; 12288]%N;
                carrier := lit "Nobody" |}).
    right. reflexivity.
Defined.

(** C3, as the handlers implement it.  With the credential unset or equal to
    the placeholder: the poller and the BOL search fail with
    [HTTPException(503)] (NotConfigured) and an empty trace; the submitter
    makes no upstream call either, and fails with [HTTPException(503)]
    whenever its booking reference is not blank. *)
Theorem missing_credential_blocks_tracking (k : option str) (net : upstream) :
  credential_missing k ->
  (forall request_id,
      poll_tracking_request k net request_id
      = ([], inl (HTTPException 503 (lit "API key not configured"))))
  /\ (forall bol,
      search_shipments_by_bol k net bol
      = ([], inl (HTTPException 503 (lit "API key not configured"))))
  /\ (forall req,
      ~ blank (bookingRef req) ->
      track_by_booking k net req
      = ([], inl (HTTPException 503
           (lit "Terminal49 API key not configured. Set TERMINAL49_API_KEY env var on Render."))))
  /\ (forall req, fst (track_by_booking k net req) = []).
Proof.
  intros H. apply credential_missing_not_configured in H.
  repeat split.
  - intros rid. unfold poll_tracking_request. now rewrite H.
  - intros bol. unfold search_shipments_by_bol. now rewrite H.
  - intros req Hb. unfold track_by_booking.
    now rewrite (not_blank_passes _ Hb), H.
  - intros req. unfold track_by_booking. rewrite H.
    now destruct (negb (str_truthy (bookingRef req)) || _).
Qed.

Lemma missing_credential_blocks_tracking_witness :
  credential_missing None
  /\ poll_tracking_request None Scenario.second_container_404 (lit "tr-1")
     = ([], inl (HTTPException 503 (lit "API key not configured")))
  /\ search_shipments_by_bol None Scenario.second_container_404 (lit "BOL1")
     = ([], inl (HTTPException 503 (lit "API key not configured")))
  /\ fst (track_by_booking None Scenario.second_container_404
            (Scenario.booking "BKG123" "Maersk")) = [].
Proof.
  split; [now left|].
  destruct (missing_credential_blocks_tracking None
              Scenario.second_container_404 (or_introl eq_refl))
    as (Hpoll & Hsearch & _ & Hquiet).
  split; [apply Hpoll|]. split; [apply Hsearch | apply Hquiet].
Defined.

(** C3 as stated fails for the submitter: with the credential unset, a blank
    booking reference is answered with 400 (InvalidInput), not 503. *)
Lemma missing_credential_blank_ref_is_400 :
  credential_missing None
  /\ track_by_booking None Scenario.unreachable (Scenario.booking "" "Maersk")
     = ([], inl (HTTPException 400 (lit "Booking reference is required")))
  /\ ~ (forall k net req,
           credential_missing k ->
           exists d, track_by_booking k net req = ([], inl (HTTPException 503 d))).
Proof.
  split; [now left|]. split; [reflexivity|].
  intros H.
  destruct (H None Scenario.unreachable (Scenario.booking "" "Maersk")
              (or_introl eq_refl)) as [d Hd].
  vm_compute in Hd. discriminate Hd.
Qed.

(** Every SCAC code of the table is a non-empty string, so [if not scac]
    fires on absent names only. *)
Lemma SCAC_MAP_codes_truthy (name scac : str) :
  lookup SCAC_MAP name = Some scac -> str_truthy scac = true.
Proof.
  unfold SCAC_MAP. simpl.
  repeat match goal with
         | |- context [if ?b then _ else _] => destruct b
         end;
    intros H; try discriminate H; injection H as <-; reflexivity.
Qed.

(** The names a caller may use are exactly the ten keys of the table. *)
Lemma SCAC_MAP_keys_listed :
  SCAC_MAP_keys
  = [ lit "Maersk"; lit "MSC"; lit "CMA CGM"; lit "Hapag-Lloyd"; lit "COSCO";
      lit "ONE"; lit "Evergreen"; lit "HMM"; lit "ZIM"; lit "Yang Ming" ].
Proof. reflexivity. Qed.

(** C4, as the handler implements it.  Once the two earlier guards are passed
    (booking reference not blank, credential configured), a carrier name that
    is not a key of [SCAC_MAP] makes the submission fail with
    [HTTPException(400)] (UnknownCarrier) and an empty trace; the detail
    quotes the name and ends with the supported names joined by ", ", so
    every supported name occurs in it.  The lookup compares keys exactly. *)
Theorem unknown_carrier_rejected
    (k : option str) (net : upstream) (req : TrackBookingRequest) :
  ~ blank (bookingRef req) ->
  ~ credential_missing k ->
  ~ In (carrier req) SCAC_MAP_keys ->
  track_by_booking k net req
  = ([], inl (HTTPException 400 (unknown_carrier_detail (carrier req))))
  /\ unknown_carrier_detail (carrier req)
     = lit "Unknown carrier " ++ dquote ++ carrier req ++ dquote
       ++ lit ". Supported: "
       ++ lit "Maersk, MSC, CMA CGM, Hapag-Lloyd, COSCO, ONE, Evergreen, HMM, ZIM, Yang Ming"
  /\ forall name, In name SCAC_MAP_keys ->
       occurs_in name (unknown_carrier_detail (carrier req)).
Proof.
  intros Hb Hk Hc. split; [|split].
  - unfold track_by_booking. rewrite (not_blank_passes _ Hb).
    destruct (not_configured k) eqn:E.
    + apply credential_missing_not_configured in E. contradiction.
    + apply lookup_none_iff in Hc. now rewrite Hc.
  - reflexivity.
  - intros name Hn. unfold unknown_carrier_detail.
    destruct (join_occurs (lit ", ") name SCAC_MAP_keys Hn) as (pre & post & E).
    rewrite E.
    exists (lit "Unknown carrier " ++ dquote ++ carrier req ++ dquote
            ++ lit ". Supported: " ++ pre), post.
    now rewrite <- !app_assoc.
Qed.

Lemma unknown_carrier_rejected_witness :
  (~ blank (lit "BKG123"))
  /\ (~ credential_missing Scenario.live_key)
  /\ (~ In (lit "maersk") SCAC_MAP_keys)
  /\ track_by_booking Scenario.live_key Scenario.unreachable
       (Scenario.booking "BKG123" "maersk")
     = ([], inl (HTTPException 400 (unknown_carrier_detail (lit "maersk")))).
Proof.
  assert (Hb : ~ blank (lit "BKG123")).
  { intros [H | H]; discriminate H. }
  assert (Hk : ~ credential_missing Scenario.live_key).
  { intros [H | H]; [discriminate H|].
    injection H as H. vm_compute in H. discriminate H. }
  assert (Hc : ~ In (lit "maersk") SCAC_MAP_keys).
  { apply lookup_none_iff. reflexivity. }
  split; [exact Hb|]. split; [exact Hk|]. split; [exact Hc|].
  apply (unknown_carrier_rejected Scenario.live_key Scenario.unreachable
           (Scenario.booking "BKG123" "maersk") Hb Hk Hc).
Defined.

(** A name of the table is never answered with the unknown-carrier error:
    past the guards, the create call is made. *)
Lemma known_carrier_is_submitted
    (k : option str) (net : upstream) (req : TrackBookingRequest) :
  ~ blank (bookingRef req) ->
  ~ credential_missing k ->
  In (carrier req) SCAC_MAP_keys ->
  exists scac rq o,
    lookup SCAC_MAP (carrier req) = Some scac
    /\ rq = CreateTrackingRequest (tracking_payload (strip (bookingRef req)) scac)
    /\ fst (track_by_booking k net req) = [(rq, o)].
Proof.
  intros Hb Hk Hc.
  destruct (track_by_booking_trace k net req) as [H | (scac & L & _ & H)].
  - exfalso. revert H. unfold track_by_booking.
    rewrite (not_blank_passes _ Hb).
    destruct (not_configured k) eqn:E.
    { apply credential_missing_not_configured in E. contradiction. }
    destruct (lookup SCAC_MAP (carrier req)) as [scac|] eqn:L.
    + rewrite (SCAC_MAP_codes_truthy _ _ L). simpl.
      unfold track_by_booking_try, bind, call, lift, ret. simpl.
      destruct (net [] _) as [resp|e]; simpl.
      * destruct (json_of resp); simpl.
        -- destruct (is_timeout e); discriminate.
        -- destruct (status_code resp =? 422)%Z; discriminate.
      * destruct (is_timeout e); discriminate.
    + apply lookup_none_iff in L. contradiction.
  - exists scac. eexists. eexists. split; [exact L|]. split; [reflexivity|].
    exact H.
Qed.

(** C4 as stated fails: with the credential unset, an unknown carrier is
    answered with 503 (NotConfigured), not with the unknown-carrier error. *)
Lemma unknown_carrier_without_credential_is_503 :
  ~ In (lit "Nobody") SCAC_MAP_keys
  /\ track_by_booking None Scenario.unreachable (Scenario.booking "BKG123" "Nobody")
     = ([], inl (HTTPException 503
          (lit "Terminal49 API key not configured. Set TERMINAL49_API_KEY env var on Render.")))
  /\ ~ (forall k net req,
           ~ In (carrier req) SCAC_MAP_keys ->
           exists tr d, track_by_booking k net req = (tr, inl (HTTPException 400 d))).
Proof.
  assert (Hc : ~ In (lit "Nobody") SCAC_MAP_keys).
  { apply lookup_none_iff. reflexivity. }
  split; [exact Hc|]. split; [reflexivity|].
  intros H.
  destruct (H None Scenario.unreachable (Scenario.booking "BKG123" "Nobody") Hc)
    as (tr & d & Hd).
  vm_compute in Hd. discriminate Hd.
Qed.

(** C2, as the handler implements it.  For every upstream response to the
    create-tracking-request call whose body decodes as JSON: status 422 gives
    a normal return with success, the duplicate flag, the decoded body and the
    already-tracked message; 200, 201 and 202 give success with the decoded
    body; any other status gives a normal return with success false, the
    status code and the decoded body. *)
Theorem submit_status_branches
    (k : option str) (net : upstream) (req : TrackBookingRequest)
    (tr : list event) (res : http_exception + json)
    (payload : json) (resp : response) (data : json) :
  track_by_booking k net req = (tr, res) ->
  In (CreateTrackingRequest payload, Returned resp) tr ->
  body resp = inr data ->
  (status_code resp = 422%Z ->
   res = inr (JDict [ (lit "success", JBool true); (lit "status", JInt 422);
                      (lit "duplicate", JBool true); (lit "data", data);
                      (lit "message",
                       JStr (lit "Booking already tracked. Fetching existing shipment data...")) ]))
  /\ (status_code resp = 200%Z \/ status_code resp = 201%Z
      \/ status_code resp = 202%Z ->
      res = inr (JDict [ (lit "success", JBool true);
                         (lit "status", JInt (status_code resp));
                         (lit "data", data) ]))
  /\ (status_code resp <> 422%Z -> status_code resp <> 200%Z ->
      status_code resp <> 201%Z -> status_code resp <> 202%Z ->
      res = inr (JDict [ (lit "success", JBool false);
                         (lit "status", JInt (status_code resp));
                         (lit "data", data) ])).
Proof.
  intros Hrun Hin Hbody.
  destruct (track_by_booking_trace k net req) as [H | (scac & _ & Hdef & H)].
  - rewrite Hrun in H. simpl in H. subst tr. contradiction.
  - rewrite Hrun in H. simpl in H. subst tr.
    destruct Hin as [Hin | []].
    assert (Hnet := f_equal snd Hin). simpl in Hnet. clear Hin.
    rewrite Hrun in Hdef. revert Hdef.
    unfold track_by_booking_try, bind, call, lift, ret, json_of.
    rewrite Hnet, Hbody. simpl.
    destruct (status_code resp =? 422)%Z eqn:E422; simpl;
      intros Hdef; injection Hdef as ->.
    + apply Z.eqb_eq in E422.
      split; [|split]; [reflexivity | lia | lia].
    + apply Z.eqb_neq in E422.
      split; [|split].
      * intros E. contradiction.
      * intros [E | [E | E]]; now rewrite E.
      * intros _ E2 E3 E4.
        apply Z.eqb_neq in E2, E3, E4. now rewrite E2, E3, E4.
Qed.

Lemma submit_status_branches_witness :
  let run := track_by_booking Scenario.live_key
               (Scenario.always Scenario.duplicate_422)
               (Scenario.booking " BKG123 " "Hapag-Lloyd") in
  fst run
  = [ (CreateTrackingRequest (tracking_payload (lit "BKG123") (lit "HLCU")),
       Returned Scenario.duplicate_422) ]
  /\ field match snd run with inr env => env | inl _ => JNull end "duplicate"
     = Some (JBool true)
  /\ field match snd run with inr env => env | inl _ => JNull end "success"
     = Some (JBool true).
Proof.
  intros run.
  assert (Htr : fst run
    = [ (CreateTrackingRequest (tracking_payload (lit "BKG123") (lit "HLCU")),
         Returned Scenario.duplicate_422) ]) by reflexivity.
  split; [exact Htr|].
  destruct (submit_status_branches Scenario.live_key
              (Scenario.always Scenario.duplicate_422)
              (Scenario.booking " BKG123 " "Hapag-Lloyd")
              (fst run) (snd run)
              (tracking_payload (lit "BKG123") (lit "HLCU"))
              Scenario.duplicate_422
              (Scenario.obj [("errors"%string,
                              JList [Scenario.obj [("status"%string,
                                                    Scenario.text "422")]])])
              (surjective_pairing run)
              (or_introl eq_refl) eq_refl) as (H422 & _ & _).
  rewrite (H422 eq_refl). split; reflexivity.
Defined.

(** C2 as stated fails on a response whose body is not JSON: [resp.json()]
    raises before the status is looked at, and the handler answers with
    [HTTPException(502)] instead of a normal return with success false. *)
Lemma submit_non_json_500_raises_502 :
  track_by_booking Scenario.live_key (Scenario.always Scenario.html_500)
    (Scenario.booking "BKG123" "Maersk")
  = ([ (CreateTrackingRequest (tracking_payload (lit "BKG123") (lit "MAEU")),
        Returned Scenario.html_500) ],
     inl (HTTPException 502 (lit "Expecting value: line 1 column 1 (char 0)")))
  /\ ~ (forall k net req tr res payload resp,
           track_by_booking k net req = (tr, res) ->
           In (CreateTrackingRequest payload, Returned resp) tr ->
           status_code resp <> 422%Z -> status_code resp <> 200%Z ->
           status_code resp <> 201%Z -> status_code resp <> 202%Z ->
           exists env, res = inr env
                       /\ field env "success" = Some (JBool false)
                       /\ field env "status" = Some (JInt (status_code resp))).
Proof.
  split; [reflexivity|].
  intros H.
  destruct (H Scenario.live_key (Scenario.always Scenario.html_500)
              (Scenario.booking "BKG123" "Maersk") _ _ _ Scenario.html_500
              eq_refl (or_introl eq_refl))
    as (env & Henv & _); [simpl; lia .. | discriminate Henv].
Qed.

(** ** Traces of [try] blocks *)

Lemma bind_inr {A B} (m : M A) (k : A -> M B) h h' (b : B) :
  bind m k h = (h', inr b) ->
  exists h1 a, m h = (h1, inr a) /\ k a h1 = (h', inr b).
Proof.
  unfold bind. destruct (m h) as [h1 [e|a]]; [discriminate|].
  intros H. now exists h1, a.
Qed.

Lemma lift_inr {A} (r : exn + A) h h' (a : A) :
  lift r h = (h', inr a) -> h' = h /\ r = inr a.
Proof. unfold lift. intros H. injection H as -> ->. now split. Qed.

Lemma ret_inr {A} (x : A) h h' (a : A) :
  ret x h = (h', inr a) -> h' = h /\ a = x.
Proof. unfold ret. intros H. injection H as -> ->. now split. Qed.

Lemma call_inr net rq h h' (resp : response) :
  call net rq h = (h', inr resp) ->
  h' = h ++ [(rq, Returned resp)] /\ net h rq = Returned resp.
Proof.
  unfold call. destruct (net h rq) as [r|e]; intros H; [|discriminate].
  injection H as <- ->. now split.
Qed.

Lemma and_then_inr {A B} (r : exn + A) (k : A -> exn + B) (b : B) :
  and_then r k = inr b -> exists a, r = inr a /\ k a = inr b.
Proof. destruct r as [e|a]; simpl; [discriminate|]. intros H. now exists a. Qed.

(** Inversion of a successful run, one statement at a time: [a] names the
    value the statement bound, [E] the fact that it was computed. *)
Ltac invert_run_as H a E :=
  let h1 := fresh "h" in
  apply bind_inr in H; destruct H as (h1 & a & E & H);
  match type of E with
  | lift _ _ = _ => apply lift_inr in E; destruct E as [-> E]
  | call _ _ _ = _ => apply call_inr in E; destruct E as [-> E]
  | _ => idtac
  end.

Tactic Notation "invert_run" hyp(H) "as" ident(a) ident(E) :=
  invert_run_as H a E.

Lemma well_traced_lift {A} P (r : exn + A) : well_traced P (lift r).
Proof.
  intros h h' r' H. injection H as <- <-.
  exists []. rewrite app_nil_r. repeat split; [constructor | contradiction].
Qed.

Lemma well_traced_ret {A} P (a : A) : well_traced P (ret a).
Proof. apply (well_traced_lift P (inr a)). Qed.

Lemma well_traced_call (P : request -> Prop) net rq :
  P rq -> well_traced P (call net rq).
Proof.
  intros HP h h' r H. unfold call in H. injection H as <- <-.
  exists [(rq, net h rq)]. repeat split.
  - now constructor.
  - intros rq' e [Hin | []]. injection Hin as _ ->. reflexivity.
Qed.

Lemma well_traced_bind {A B} P (m : M A) (k : A -> M B) :
  well_traced P m -> (forall a, well_traced P (k a)) ->
  well_traced P (bind m k).
Proof.
  intros Hm Hk h h' r H. unfold bind in H.
  destruct (m h) as [h1 [e|a]] eqn:E.
  - injection H as <- <-.
    destruct (Hm _ _ _ E) as (evs & -> & F & R).
    exists evs. repeat split; [exact F|].
    intros rq e' Hin. specialize (R _ _ Hin). congruence.
  - destruct (Hm _ _ _ E) as (evs1 & -> & F1 & R1).
    destruct (Hk a _ _ _ H) as (evs2 & -> & F2 & R2).
    exists (evs1 ++ evs2). rewrite app_assoc. repeat split.
    + apply Forall_app. now split.
    + intros rq e Hin. apply in_app_or in Hin as [Hin | Hin].
      * discriminate (R1 _ _ Hin).
      * exact (R2 _ _ Hin).
Qed.

Lemma well_traced_weaken {A} (P Q : request -> Prop) (m : M A) :
  (forall rq, P rq -> Q rq) -> well_traced P m -> well_traced Q m.
Proof.
  intros HPQ Hm h h' r H.
  destruct (Hm _ _ _ H) as (evs & -> & F & R).
  exists evs. repeat split; [|exact R].
  eapply Forall_impl; [|exact F]. intros ev. apply HPQ.
Qed.

Ltac well_traced_step :=
  match goal with
  | |- well_traced _ (bind _ _) => apply well_traced_bind; [|intros ?]
  | |- well_traced _ (lift _) => apply well_traced_lift
  | |- well_traced _ (ret _) => apply well_traced_ret
  | |- well_traced _ (call _ _) => apply well_traced_call
  | |- well_traced _ (if ?b then _ else _) => destruct b
  end.

Lemma fetch_containers_well_traced net crefs :
  forall acc, well_traced is_container_read (fetch_containers net crefs acc).
Proof.
  induction crefs as [|cref rest IH]; intros acc; simpl.
  - apply well_traced_ret.
  - repeat well_traced_step; try apply IH. now eexists.
Qed.

Lemma search_containers_well_traced net crefs :
  forall acc, well_traced is_container_read (search_containers net crefs acc).
Proof.
  induction crefs as [|cref rest IH]; intros acc; simpl.
  - apply well_traced_ret.
  - repeat well_traced_step; try apply IH. now eexists.
Qed.

Lemma search_shipments_well_traced net ships :
  forall acc, well_traced is_container_read (search_shipments net ships acc).
Proof.
  induction ships as [|ship rest IH]; intros acc; simpl.
  - apply well_traced_ret.
  - repeat well_traced_step; try apply IH.
    apply search_containers_well_traced.
Qed.

Lemma search_try_well_traced net bol :
  well_traced (fun _ => True) (search_shipments_by_bol_try net bol).
Proof.
  unfold search_shipments_by_bol_try.
  repeat well_traced_step; try exact I.
  eapply well_traced_weaken; [|apply search_shipments_well_traced].
  intros; exact I.
Qed.

(** ** The BOL search: [search_shipments_by_bol] *)

(** C8. If any upstream call of a BOL search raised an exception [e] (the
    shipment search or any per-container fetch; a timeout included), the
    search ends with [HTTPException(502, str(e))] (UpstreamUnreachable): no
    result envelope, hence no partial result, is returned. *)
Theorem search_aborts_on_any_exception
    (k : option str) (net : upstream) (bol : str)
    (tr : list event) (res : http_exception + json)
    (rq : request) (e : exn) :
  search_shipments_by_bol k net bol = (tr, res) ->
  In (rq, Raised e) tr ->
  res = inl (HTTPException 502 (exn_str e)).
Proof.
  unfold search_shipments_by_bol.
  destruct (not_configured k).
  - intros H. injection H as <- _. contradiction.
  - destruct (search_shipments_by_bol_try net bol []) as [h' r] eqn:E.
    destruct (search_try_well_traced net bol _ _ _ E) as (evs & -> & _ & R).
    simpl. intros H Hin.
    assert (Htr : tr = evs) by (destruct r; now injection H as <- _).
    subst tr. rewrite (R _ _ Hin) in H. now injection H as <-.
Qed.

Lemma search_aborts_on_any_exception_witness :
  let run := search_shipments_by_bol Scenario.live_key
               Scenario.second_container_times_out (lit " BOL1 ") in
  map fst (fst run)
  = [ SearchShipments (lit "BOL1");
      ReadContainer (JStr (lit "C1")); ReadContainer (JStr (lit "C2")) ]
  /\ In (ReadContainer (JStr (lit "C2")), Raised (Exn true (lit "timed out")))
        (fst run)
  /\ snd run = inl (HTTPException 502 (lit "timed out")).
Proof.
  intros run.
  assert (Hin : In (ReadContainer (JStr (lit "C2")),
                    Raised (Exn true (lit "timed out"))) (fst run)).
  { right. right. left. reflexivity. }
  split; [reflexivity|]. split; [exact Hin|].
  exact (search_aborts_on_any_exception Scenario.live_key
           Scenario.second_container_times_out (lit " BOL1 ")
           (fst run) (snd run) _ _ (surjective_pairing run) Hin).
Defined.

(** ** The poller: [poll_tracking_request] *)

Lemma except_504_502_inr msg x tr (env : json) :
  except_504_502 msg x = (tr, inr env) -> x = (tr, inr env).
Proof.
  destruct x as [h [e|v]]; simpl.
  - destruct (is_timeout e); intros H; discriminate H.
  - intros H. injection H as -> ->. reflexivity.
Qed.

Lemma except_504_502_trace msg x : fst (except_504_502 msg x) = fst x.
Proof.
  destruct x as [h [e|v]]; simpl; [|reflexivity].
  now destruct (is_timeout e).
Qed.

(** Steps 3 to 5 start with the shipment read; every later call is a
    container read. *)
Lemma poll_shipment_trace net sid h :
  exists cevs,
    fst (poll_shipment net sid h)
    = h ++ (ReadShipment sid, net h (ReadShipment sid)) :: cevs
    /\ Forall (fun ev => is_container_read (fst ev)) cevs.
Proof.
  unfold poll_shipment.
  match goal with
  | |- context [bind (call net _) ?k] => set (rest := k)
  end.
  assert (W : forall ship_resp, well_traced is_container_read (rest ship_resp)).
  { intros ship_resp. unfold rest.
    repeat well_traced_step. apply fetch_containers_well_traced. }
  unfold bind, call.
  destruct (net h (ReadShipment sid)) as [ship_resp|e] eqn:E.
  - destruct (rest ship_resp (h ++ [(ReadShipment sid, Returned ship_resp)]))
      as [h' r] eqn:K.
    destruct (W _ _ _ _ K) as (cevs & -> & F & _).
    exists cevs. simpl. rewrite <- app_assoc. now split.
  - exists []. simpl. now split.
Qed.

(** The poller reads the tracking request first; it then either stops, or
    goes on with steps 3 to 5 for the linked shipment. *)
Lemma poll_try_cases net rid :
  let rq := ReadTrackingRequest rid in
  fst (poll_tracking_request_try net rid []) = [(rq, net [] rq)]
  \/ exists sid,
       poll_tracking_request_try net rid []
       = poll_shipment net sid [(rq, net [] rq)].
Proof.
  intros rq.
  remember (poll_tracking_request_try net rid []) as run eqn:Hrun.
  unfold poll_tracking_request_try, bind at 1, call in Hrun. simpl in Hrun.
  fold rq in Hrun.
  destruct (net [] rq) as [resp|e]; [|subst run; now left].
  destruct (negb (status_code resp =? 200)%Z).
  { left. subst run. unfold bind, lift, ret. now destruct (json_of resp). }
  unfold bind at 1, lift at 1 in Hrun.
  destruct (json_of resp) as [e|tr_data]; [subst run; now left|].
  unfold bind at 1, lift at 1 in Hrun.
  destruct (tracking_attrs tr_data) as [e|attrs]; [subst run; now left|].
  unfold bind at 1, lift at 1 in Hrun.
  destruct (tracking_status attrs) as [e|status]; [subst run; now left|].
  destruct (eq_str status (lit "pending")); [subst run; now left|].
  destruct (eq_str status (lit "failed")).
  { left. subst run. unfold bind, lift, ret. now destruct (py_get attrs _ _). }
  unfold bind at 1, lift at 1 in Hrun.
  destruct (tracked_object tr_data) as [e|tracked_obj]; [subst run; now left|].
  unfold bind at 1, lift at 1 in Hrun.
  destruct (not_linked tracked_obj) as [e|[|]];
    [subst run; now left | subst run; now left|].
  unfold bind at 1, lift at 1 in Hrun.
  destruct (py_getitem tracked_obj "id") as [e|sid]; [subst run; now left|].
  right. now exists sid.
Qed.

(** The outcome of the tracking-request read, as a successful event of the
    trace, is the provider's answer to the first call. *)
Lemma poll_first_event k net rid rid' tr res (o : outcome) :
  poll_tracking_request k net rid = (tr, res) ->
  In (ReadTrackingRequest rid', o) tr ->
  net [] (ReadTrackingRequest rid) = o /\ not_configured k = false.
Proof.
  unfold poll_tracking_request.
  destruct (not_configured k).
  { intros H. injection H as <- _. contradiction. }
  intros H Hin. split; [|reflexivity].
  apply (f_equal fst) in H. rewrite except_504_502_trace in H. simpl in H.
  subst tr.
  destruct (poll_try_cases net rid) as [E | [sid E]].
  - rewrite E in Hin. destruct Hin as [Hin | []]. now injection Hin as _ ->.
  - rewrite E in Hin.
    destruct (poll_shipment_trace net sid
                [(ReadTrackingRequest rid, net [] (ReadTrackingRequest rid))])
      as (cevs & Htr & F).
    rewrite Htr in Hin.
    simpl in Hin. destruct Hin as [Hin | [Hin | Hin]].
    + now injection Hin as _ ->.
    + discriminate Hin.
    + rewrite Forall_forall in F. destruct (F _ Hin) as [cid Hc].
      discriminate Hc.
Qed.

(** A shipment read found in the trace is the second call, made by steps 3
    to 5 after the tracking request was read. *)
Lemma poll_shipment_event k net rid sid tr res (o : outcome) :
  poll_tracking_request k net rid = (tr, res) ->
  In (ReadShipment sid, o) tr ->
  let ev1 := (ReadTrackingRequest rid, net [] (ReadTrackingRequest rid)) in
  (tr, res) = except_504_502 (lit "Timeout polling Terminal49")
                (poll_shipment net sid [ev1])
  /\ net [ev1] (ReadShipment sid) = o.
Proof.
  unfold poll_tracking_request.
  destruct (not_configured k).
  { intros H. injection H as <- _. contradiction. }
  intros H Hin.
  set (ev1 := (ReadTrackingRequest rid, net [] (ReadTrackingRequest rid))).
  assert (Htr := f_equal fst H). rewrite except_504_502_trace in Htr.
  simpl in Htr. subst tr.
  destruct (poll_try_cases net rid) as [E | [sid' E]].
  - rewrite E in Hin. destruct Hin as [Hin | []]. discriminate Hin.
  - rewrite E in Hin, H.
    destruct (poll_shipment_trace net sid' [ev1]) as (cevs & Htr & F).
    fold ev1 in Hin. rewrite Htr in Hin.
    simpl in Hin. destruct Hin as [Hin | [Hin | Hin]].
    + discriminate Hin.
    + injection Hin as -> <-. split; [|reflexivity].
      rewrite E. symmetry. exact H.
    + rewrite Forall_forall in F. destruct (F _ Hin) as [cid Hc].
      discriminate Hc.
Qed.

(** C6. Whenever the tracking-request read returns HTTP 200 with a body
    whose [data.attributes.status] is "pending", the poller returns success
    with [tracking_status = "pending"] and the retry advice, and that read is
    the only upstream call of the poll: no shipment fetch, no container
    fetch. *)
Theorem pending_makes_no_shipment_fetch
    (k : option str) (net : upstream) (rid rid' : str)
    (tr : list event) (res : http_exception + json)
    (resp : response) (tr_data attrs : json) :
  poll_tracking_request k net rid = (tr, res) ->
  In (ReadTrackingRequest rid', Returned resp) tr ->
  status_code resp = 200%Z ->
  body resp = inr tr_data ->
  tracking_attrs tr_data = inr attrs ->
  tracking_status attrs = inr (JStr (lit "pending")) ->
  res = inr (JDict [ (lit "success", JBool true);
                     (lit "tracking_status", JStr (lit "pending"));
                     (lit "message",
                      JStr (lit "Terminal49 is still fetching data. Poll again in 3-5 seconds.")) ])
  /\ tr = [(ReadTrackingRequest rid, Returned resp)].
Proof.
  intros H Hin Hst Hbody Hattrs Hstatus.
  destruct (poll_first_event _ _ _ _ _ _ _ H Hin) as [Hnet Hk].
  revert H. unfold poll_tracking_request. rewrite Hk.
  unfold poll_tracking_request_try, bind, call, lift, ret, json_of.
  rewrite Hnet, Hst, Hbody. simpl. rewrite Hattrs, Hstatus. simpl.
  intros H. injection H as <- <-. now split.
Qed.

Lemma pending_makes_no_shipment_fetch_witness :
  let run := poll_tracking_request Scenario.live_key Scenario.still_pending
               (lit "tr-1") in
  fst run
  = [ (ReadTrackingRequest (lit "tr-1"),
       Returned (Response 200 (inr (Scenario.tracking_body "pending")))) ]
  /\ field match snd run with inr env => env | inl _ => JNull end
       "tracking_status"
     = Some (JStr (lit "pending")).
Proof.
  intros run.
  destruct (pending_makes_no_shipment_fetch Scenario.live_key
              Scenario.still_pending (lit "tr-1") (lit "tr-1")
              (fst run) (snd run)
              (Response 200 (inr (Scenario.tracking_body "pending")))
              (Scenario.tracking_body "pending")
              (Scenario.obj [("status"%string, Scenario.text "pending")])
              (surjective_pairing run) (or_introl eq_refl)
              eq_refl eq_refl eq_refl eq_refl) as [Hres Htr].
  split; [exact Htr|]. rewrite Hres. reflexivity.
Defined.

(** C7. When the poller fetched the linked shipment and that fetch returned a
    status other than 200, the shipment counts as an empty object: the poll
    still returns success with [tracking_status = "succeeded"], a summary
    whose fields are all [None], an empty container list and
    [containerCount = 0]; the shipment read is the last upstream call. *)
Theorem shipment_fetch_failure_tolerated
    (k : option str) (net : upstream) (rid : str)
    (tr : list event) (res : http_exception + json)
    (sid : json) (ship_resp : response) :
  poll_tracking_request k net rid = (tr, res) ->
  In (ReadShipment sid, Returned ship_resp) tr ->
  status_code ship_resp <> 200%Z ->
  res = inr (JDict [ (lit "success", JBool true);
                     (lit "tracking_status", JStr (lit "succeeded"));
                     (lit "shipment", empty_shipment_summary);
                     (lit "containers", JList []);
                     (lit "containerCount", JInt 0) ])
  /\ tr = [ (ReadTrackingRequest rid, net [] (ReadTrackingRequest rid));
            (ReadShipment sid, Returned ship_resp) ].
Proof.
  intros H Hin Hst.
  destruct (poll_shipment_event _ _ _ _ _ _ _ H Hin) as [Hrun Hnet].
  revert Hrun.
  unfold poll_shipment, bind, call, lift, ret, shipment_of.
  rewrite Hnet. apply Z.eqb_neq in Hst. rewrite Hst. simpl.
  intros Hrun. injection Hrun as -> ->. now split.
Qed.

Lemma shipment_fetch_failure_tolerated_witness :
  let run := poll_tracking_request Scenario.live_key Scenario.shipment_500
               (lit "tr-1") in
  map fst (fst run)
  = [ ReadTrackingRequest (lit "tr-1"); ReadShipment (JStr (lit "S")) ]
  /\ field match snd run with inr env => env | inl _ => JNull end "containers"
     = Some (JList [])
  /\ field match snd run with inr env => env | inl _ => JNull end "shipment"
     = Some empty_shipment_summary.
Proof.
  intros run.
  destruct (shipment_fetch_failure_tolerated Scenario.live_key
              Scenario.shipment_500 (lit "tr-1") (fst run) (snd run)
              (JStr (lit "S")) Scenario.html_500
              (surjective_pairing run) (or_intror (or_introl eq_refl)))
    as [Hres Htr].
  - simpl. lia.
  - rewrite Htr, Hres. repeat split.
Defined.

(** A successful run of the container loop: one read per present
    identifier, in order, and nothing else; the records appended are those of
    the reads that returned 200, in order. *)
Lemma fetch_containers_inr net crefs :
  forall acc h h' out,
    fetch_containers net crefs acc h = (h', inr out) ->
    exists cevs recs,
      h' = h ++ cevs
      /\ out = acc ++ recs
      /\ map fst cevs = map ReadContainer (present_ids crefs)
      /\ map Some recs = map record_of_event (filter returned_200 cevs).
Proof.
  induction crefs as [|cref rest IH]; intros acc h h' out H; simpl in H.
  - apply ret_inr in H as [-> ->].
    exists [], []. now rewrite !app_nil_r.
  - invert_run H as cid Hid.
    destruct (truthy cid) eqn:Hcid.
    + invert_run H as c_resp Hnet.
      destruct (status_code c_resp =? 200)%Z eqn:Hst.
      * invert_run H as c_body Hbody.
        invert_run H as c_data Hdata.
        invert_run H as c_attrs Hattrs.
        invert_run H as record Hrecord.
        destruct (IH _ _ _ _ H) as (cevs & recs & -> & -> & Hreq & Hrec).
        exists ((ReadContainer cid, Returned c_resp) :: cevs), (record :: recs).
        rewrite <- !app_assoc. repeat split.
        -- simpl. rewrite Hreq. unfold present_ids. simpl.
           now rewrite Hid, Hcid.
        -- simpl. unfold returned_200 at 1. simpl. rewrite Hst. simpl.
           rewrite Hrec. f_equal.
           unfold record_of_event, record_of. simpl.
           rewrite Hbody. simpl. rewrite Hdata. simpl. rewrite Hattrs. simpl.
           now rewrite Hrecord.
      * destruct (IH _ _ _ _ H) as (cevs & recs & -> & -> & Hreq & Hrec).
        exists ((ReadContainer cid, Returned c_resp) :: cevs), recs.
        rewrite <- !app_assoc. repeat split.
        -- simpl. rewrite Hreq. unfold present_ids. simpl.
           now rewrite Hid, Hcid.
        -- simpl. unfold returned_200 at 1. simpl. now rewrite Hst.
    + destruct (IH _ _ _ _ H) as (cevs & recs & -> & -> & Hreq & Hrec).
      exists cevs, recs. repeat split; [|exact Hrec].
      rewrite Hreq. unfold present_ids. simpl. now rewrite Hid, Hcid.
Qed.

(** A poll that returned an envelope with a [containers] field went through
    steps 3 to 5: it read the tracking request, read the linked shipment, and
    ran the container loop over the shipment's relationship entries. *)
Lemma poll_succeeded_inv k net rid tr env cs :
  poll_tracking_request k net rid = (tr, inr env) ->
  field env "containers" = Some (JList cs) ->
  exists resp sid ship_resp shipment refs crefs,
    shipment_of ship_resp = inr shipment
    /\ container_refs shipment = inr refs
    /\ py_iter refs = inr crefs
    /\ fetch_containers net crefs []
         [ (ReadTrackingRequest rid, Returned resp);
           (ReadShipment sid, Returned ship_resp) ]
       = (tr, inr cs)
    /\ exists summary,
         env = JDict [ (lit "success", JBool true);
                       (lit "tracking_status", JStr (lit "succeeded"));
                       (lit "shipment", summary);
                       (lit "containers", JList cs);
                       (lit "containerCount",
                        JInt (Z.of_nat (List.length cs))) ].
Proof.
  unfold poll_tracking_request.
  destruct (not_configured k); [discriminate|].
  intros H Hf. apply except_504_502_inr in H.
  unfold poll_tracking_request_try in H.
  invert_run H as resp Hnet.
  destruct (negb (status_code resp =? 200)%Z).
  { invert_run H as data Hdata. apply ret_inr in H as [_ ->]. discriminate Hf. }
  invert_run H as tr_data Hbody.
  invert_run H as attrs Hattrs.
  invert_run H as status Hstatus.
  destruct (eq_str status (lit "pending")).
  { apply ret_inr in H as [_ ->]. discriminate Hf. }
  destruct (eq_str status (lit "failed")).
  { invert_run H as reason Hreason.
    apply ret_inr in H as [_ ->]. discriminate Hf. }
  invert_run H as tracked_obj Hobj.
  invert_run H as unlinked Hlinked.
  destruct unlinked.
  { apply ret_inr in H as [_ ->]. discriminate Hf. }
  invert_run H as sid Hsid.
  unfold poll_shipment in H.
  invert_run H as ship_resp Hship.
  invert_run H as shipment Hshipment.
  invert_run H as refs Hrefs.
  invert_run H as crefs Hcrefs.
  invert_run H as containers Hloop.
  invert_run H as s_attrs Hsattrs.
  invert_run H as summary Hsummary.
  apply ret_inr in H as [-> ->].
  simpl in Hf. injection Hf as ->.
  exists resp, sid, ship_resp, shipment, refs, crefs.
  repeat split; try assumption. now exists summary.
Qed.

(** What a normalized record keeps of the attribute object it was built
    from: the object itself under [raw], and its [weight_in_lbs] under
    [weight_kg]. *)
Lemma record_of_inr (r : response) (rec : json) :
  record_of r = inr rec ->
  exists d,
    upstream_attrs r = inr (JDict d)
    /\ field rec "raw" = Some (JDict d)
    /\ field rec "weight_kg" = Some (get_or_null d "weight_in_lbs").
Proof.
  unfold record_of, upstream_attrs. intros H.
  apply and_then_inr in H as (c_body & Hbody & H).
  apply and_then_inr in H as (c_data & Hdata & H).
  apply and_then_inr in H as (c_attrs & Hattrs & H).
  rewrite Hbody. simpl. rewrite Hdata. simpl. rewrite Hattrs.
  unfold container_record in H.
  apply and_then_inr in H as (id & _ & H).
  destruct c_attrs as [| | | | | |d]; try discriminate H.
  exists d. split; [reflexivity|].
  unfold py_get, get_or_null in *.
  repeat match type of H with
         | and_then ?r _ = _ =>
             apply and_then_inr in H as (? & ? & H)
         end.
  injection H as <-. split; [reflexivity|].
  simpl. destruct (lookup d (lit "weight_in_lbs")); congruence.
Qed.

(** Every record of the returned list comes from a container read of the
    trace that returned 200. *)
Lemma poll_container_origin k net rid tr env cs c :
  poll_tracking_request k net rid = (tr, inr env) ->
  field env "containers" = Some (JList cs) ->
  In c cs ->
  exists cid c_resp,
    In (ReadContainer cid, Returned c_resp) tr
    /\ status_code c_resp = 200%Z
    /\ record_of c_resp = inr c.
Proof.
  intros H Hf Hc.
  destruct (poll_succeeded_inv _ _ _ _ _ _ H Hf)
    as (resp & sid & ship_resp & shipment & refs & crefs
        & _ & _ & _ & Hloop & _).
  destruct (fetch_containers_inr _ _ _ _ _ _ Hloop)
    as (cevs & recs & -> & Hcs & Hreq & Hrec).
  simpl in Hcs. subst recs.
  assert (Hin : In (Some c) (map record_of_event (filter returned_200 cevs))).
  { rewrite <- Hrec. now apply in_map. }
  apply in_map_iff in Hin as ([rq o] & Hev & Hin).
  apply filter_In in Hin as [Hin H200].
  assert (Hrq : In rq (map ReadContainer (present_ids crefs))).
  { rewrite <- Hreq. apply (in_map fst) in Hin. exact Hin. }
  apply in_map_iff in Hrq as (cid & <- & _).
  unfold returned_200 in H200. unfold record_of_event in Hev.
  simpl in H200, Hev.
  destruct o as [c_resp|e]; [|discriminate].
  exists cid, c_resp. split; [|split].
  - apply in_or_app. now right.
  - now apply Z.eqb_eq.
  - destruct (record_of c_resp); congruence.
Qed.

(** The loop's [if cid:] skips an entry whose identifier is missing, [None]
    or empty, and lets any other identifier through. *)
Lemma present_ids_examples :
  present_ids [ JDict [(lit "type", JStr (lit "container"))];
                JDict [(lit "id", JNull)];
                JDict [(lit "id", JStr [])];
                JDict [(lit "id", JStr (lit "C1"))] ]
  = [JStr (lit "C1")].
Proof. reflexivity. Qed.



(** The records of a returned envelope, in order, are the records of the
    container reads that returned 200, in order: each record is the one
    [container_record] builds from its own read. *)
Lemma poll_records_in_order k net rid tr env cs :
  poll_tracking_request k net rid = (tr, inr env) ->
  field env "containers" = Some (JList cs) ->
  exists resp sid ship_resp cevs,
    tr = (ReadTrackingRequest rid, Returned resp)
         :: (ReadShipment sid, Returned ship_resp) :: cevs
    /\ Forall2 (fun ev c =>
                  exists cid c_resp,
                    ev = (ReadContainer cid, Returned c_resp)
                    /\ status_code c_resp = 200%Z
                    /\ record_of c_resp = inr c)
               (filter returned_200 cevs) cs.
Proof.
  intros H Hf.
  destruct (poll_succeeded_inv _ _ _ _ _ _ H Hf)
    as (resp & sid & ship_resp & shipment & refs & crefs
        & _ & _ & _ & Hloop & _).
  destruct (fetch_containers_inr _ _ _ _ _ _ Hloop)
    as (cevs & recs & -> & Hcs & Hreq & Hrec).
  simpl in Hcs. subst recs.
  exists resp, sid, ship_resp, cevs. split; [reflexivity|].
  assert (Hevs : forall ev, In ev (filter returned_200 cevs) ->
                   returned_200 ev = true /\ is_container_read (fst ev)).
  { intros ev Hin. apply filter_In in Hin as [Hin H200].
    split; [exact H200|].
    assert (Hrq : In (fst ev) (map ReadContainer (present_ids crefs))).
    { rewrite <- Hreq. now apply in_map. }
    apply in_map_iff in Hrq as (cid & <- & _). now exists cid. }
  remember (filter returned_200 cevs) as l eqn:El.
  clear - Hrec Hevs. revert cs Hrec Hevs.
  induction l as [|[rq o] l IH];
    intros [|c cs] Hrec Hevs; try discriminate Hrec; constructor.
  - destruct (Hevs (rq, o) (or_introl eq_refl)) as [H200 [cid Hcid]].
    simpl in Hcid. subst rq.
    injection Hrec as Hc _.
    unfold returned_200 in H200. unfold record_of_event in Hc.
    simpl in H200, Hc.
    destruct o as [c_resp|e]; [|discriminate H200].
    exists cid, c_resp. split; [reflexivity|].
    split; [now apply Z.eqb_eq|].
    destruct (record_of c_resp); congruence.
  - injection Hrec as _ Hrec. apply IH; [exact Hrec|].
    intros ev Hin. apply Hevs. now right.
Qed.

(** C9. The container records a poll returns are, in order, the records of
    the container reads that returned 200, in order, and each record carries
    under [raw] the attribute object of its own read
    ([c_resp.json().get("data", {}).get("attributes", {})]), unchanged,
    whichever of the named fields that object has or lacks.  In particular
    every returned record is the record of a 200 read of the trace and
    carries that read's attribute object. *)
Theorem poll_container_keeps_raw_attributes
    (k : option str) (net : upstream) (rid : str)
    (tr : list event) (env : json) (cs : list json) :
  poll_tracking_request k net rid = (tr, inr env) ->
  field env "containers" = Some (JList cs) ->
  (exists resp sid ship_resp cevs,
      tr = (ReadTrackingRequest rid, Returned resp)
           :: (ReadShipment sid, Returned ship_resp) :: cevs
      /\ Forall2 (fun ev c =>
                    exists cid c_resp c_attrs,
                      ev = (ReadContainer cid, Returned c_resp)
                      /\ status_code c_resp = 200%Z
                      /\ record_of c_resp = inr c
                      /\ upstream_attrs c_resp = inr c_attrs
                      /\ field c "raw" = Some c_attrs)
                 (filter returned_200 cevs) cs)
  /\ forall c, In c cs ->
       exists cid c_resp c_attrs,
         In (ReadContainer cid, Returned c_resp) tr
         /\ status_code c_resp = 200%Z
         /\ record_of c_resp = inr c
         /\ upstream_attrs c_resp = inr c_attrs
         /\ field c "raw" = Some c_attrs.
Proof.
  intros H Hf. split.
  - destruct (poll_records_in_order _ _ _ _ _ _ H Hf)
      as (resp & sid & ship_resp & cevs & Htr & Hall).
    exists resp, sid, ship_resp, cevs. split; [exact Htr|].
    eapply Forall2_impl; [|exact Hall].
    intros ev c (cid & c_resp & Hev & Hst & Hrec).
    destruct (record_of_inr _ _ Hrec) as (d & Hattrs & Hraw & _).
    now exists cid, c_resp, (JDict d).
  - intros c Hc.
    destruct (poll_container_origin _ _ _ _ _ _ _ H Hf Hc)
      as (cid & c_resp & Hin & Hst & Hrec).
    destruct (record_of_inr _ _ Hrec) as (d & Hattrs & Hraw & _).
    now exists cid, c_resp, (JDict d).
Qed.

Lemma poll_container_keeps_raw_attributes_witness :
  let run := poll_tracking_request Scenario.live_key
               RecordScenario.both_containers_200 (lit "tr-1") in
  let env := match snd run with inr env => env | inl _ => JNull end in
  let cs := match field env "containers" with
            | Some (JList cs) => cs
            | _ => []
            end in
  run = (fst run, inr env)
  /\ field env "containers" = Some (JList cs)
  /\ map (fun c => field c "id") cs
     = [Some (JStr (lit "C1")); Some (JStr (lit "C2"))]
  /\ map (fun c => field c "raw") cs
     = [Some Scenario.c1_attrs; Some RecordScenario.c2_attrs]
  /\ field Scenario.c1_attrs "number" = None
  /\ map (fun c => field c "number") cs
     = [Some (JStr []); Some (JStr (lit "MSKU2222222"))]
  /\ Forall2 (fun ev c =>
                exists cid c_resp c_attrs,
                  ev = (ReadContainer cid, Returned c_resp)
                  /\ status_code c_resp = 200%Z
                  /\ record_of c_resp = inr c
                  /\ upstream_attrs c_resp = inr c_attrs
                  /\ field c "raw" = Some c_attrs)
             (filter returned_200 (skipn 2 (fst run))) cs.
Proof.
  intros run env cs.
  assert (Hrun : run = (fst run, inr env)) by (vm_compute; reflexivity).
  assert (Hf : field env "containers" = Some (JList cs))
    by (vm_compute; reflexivity).
  split; [exact Hrun|]. split; [exact Hf|].
  split; [reflexivity|]. split; [reflexivity|].
  split; [reflexivity|]. split; [reflexivity|].
  destruct (poll_container_keeps_raw_attributes Scenario.live_key
              RecordScenario.both_containers_200 (lit "tr-1")
              (fst run) env cs Hrun Hf)
    as [(resp & sid & ship_resp & cevs & Htr & Hall) _].
  rewrite Htr. exact Hall.
Defined.

(** C10. The container records a poll returns are, in order, the records of
    the container reads that returned 200, in order, and in each record
    [weight_kg] is the value of the attribute [weight_in_lbs] of its own
    read, passed through as it is (no unit conversion), and [None] when the
    attribute is absent. *)
Theorem poll_container_weight_kg_is_weight_in_lbs
    (k : option str) (net : upstream) (rid : str)
    (tr : list event) (env : json) (cs : list json) :
  poll_tracking_request k net rid = (tr, inr env) ->
  field env "containers" = Some (JList cs) ->
  (exists resp sid ship_resp cevs,
      tr = (ReadTrackingRequest rid, Returned resp)
           :: (ReadShipment sid, Returned ship_resp) :: cevs
      /\ Forall2 (fun ev c =>
                    exists cid c_resp d,
                      ev = (ReadContainer cid, Returned c_resp)
                      /\ status_code c_resp = 200%Z
                      /\ record_of c_resp = inr c
                      /\ upstream_attrs c_resp = inr (JDict d)
                      /\ field c "weight_kg"
                         = Some (get_or_null d "weight_in_lbs"))
                 (filter returned_200 cevs) cs)
  /\ forall c, In c cs ->
       exists cid c_resp d,
         In (ReadContainer cid, Returned c_resp) tr
         /\ status_code c_resp = 200%Z
         /\ record_of c_resp = inr c
         /\ upstream_attrs c_resp = inr (JDict d)
         /\ field c "weight_kg" = Some (get_or_null d "weight_in_lbs").
Proof.
  intros H Hf. split.
  - destruct (poll_records_in_order _ _ _ _ _ _ H Hf)
      as (resp & sid & ship_resp & cevs & Htr & Hall).
    exists resp, sid, ship_resp, cevs. split; [exact Htr|].
    eapply Forall2_impl; [|exact Hall].
    intros ev c (cid & c_resp & Hev & Hst & Hrec).
    destruct (record_of_inr _ _ Hrec) as (d & Hattrs & _ & Hw).
    now exists cid, c_resp, d.
  - intros c Hc.
    destruct (poll_container_origin _ _ _ _ _ _ _ H Hf Hc)
      as (cid & c_resp & Hin & Hst & Hrec).
    destruct (record_of_inr _ _ Hrec) as (d & Hattrs & _ & Hw).
    now exists cid, c_resp, d.
Qed.

Lemma poll_container_weight_kg_is_weight_in_lbs_witness :
  let run := poll_tracking_request Scenario.live_key
               RecordScenario.both_containers_200 (lit "tr-1") in
  let env := match snd run with inr env => env | inl _ => JNull end in
  let cs := match field env "containers" with
            | Some (JList cs) => cs
            | _ => []
            end in
  run = (fst run, inr env)
  /\ field env "containers" = Some (JList cs)
  /\ map (fun c => field c "id") cs
     = [Some (JStr (lit "C1")); Some (JStr (lit "C2"))]
  /\ field Scenario.c1_attrs "weight_in_lbs" = Some (JInt 4200)
  /\ field RecordScenario.c2_attrs "weight_in_lbs" = Some (JInt 100)
  /\ map (fun c => field c "weight_kg") cs
     = [Some (JInt 4200); Some (JInt 100)]
  /\ Forall2 (fun ev c =>
                exists cid c_resp d,
                  ev = (ReadContainer cid, Returned c_resp)
                  /\ status_code c_resp = 200%Z
                  /\ record_of c_resp = inr c
                  /\ upstream_attrs c_resp = inr (JDict d)
                  /\ field c "weight_kg"
                     = Some (get_or_null d "weight_in_lbs"))
             (filter returned_200 (skipn 2 (fst run))) cs.
Proof.
  intros run env cs.
  assert (Hrun : run = (fst run, inr env)) by (vm_compute; reflexivity).
  assert (Hf : field env "containers" = Some (JList cs))
    by (vm_compute; reflexivity).
  split; [exact Hrun|]. split; [exact Hf|].
  split; [reflexivity|]. split; [reflexivity|].
  split; [reflexivity|]. split; [reflexivity|].
  destruct (poll_container_weight_kg_is_weight_in_lbs Scenario.live_key
              RecordScenario.both_containers_200 (lit "tr-1")
              (fst run) env cs Hrun Hf)
    as [(resp & sid & ship_resp & cevs & Htr & Hall) _].
  rewrite Htr. exact Hall.
Defined.

(* ========================================================================= *)
(** * Further properties of the tracking handlers *)
(* ========================================================================= *)

(** ** [str.strip] *)

Lemma lstrip_split (s : str) :
  exists pre, s = pre ++ lstrip s /\ forallb isspace pre = true.
Proof.
  induction s as [|c s (pre & E & Hpre)]; simpl.
  - now exists [].
  - destruct (isspace c) eqn:Hc.
    + exists (c :: pre). simpl. rewrite Hc, Hpre. split; [|reflexivity].
      now rewrite <- E.
    + now exists [].
Qed.

Lemma lstrip_head (s : str) :
  match lstrip s with
  | c :: _ => isspace c = false
  | [] => True
  end.
Proof.
  induction s as [|c s IH]; simpl; [exact I|].
  destruct (isspace c) eqn:Hc; [exact IH | exact Hc].
Qed.

Lemma lstrip_snoc (s : str) (c : N) :
  isspace c = false -> lstrip (s ++ [c]) = lstrip s ++ [c].
Proof.
  intros Hc. induction s as [|x s IH]; simpl.
  - now rewrite Hc.
  - destruct (isspace x); [exact IH | reflexivity].
Qed.

(** Stripping on the right keeps a first character that is not whitespace. *)
Lemma rstrip_keeps_head (c : N) (s : str) :
  isspace c = false -> exists s', rstrip (c :: s) = c :: s'.
Proof.
  intros Hc. unfold rstrip. simpl.
  rewrite (lstrip_snoc _ _ Hc), rev_app_distr. simpl. now eexists.
Qed.

Lemma rstrip_split (s : str) :
  exists post, s = rstrip s ++ post /\ forallb isspace post = true.
Proof.
  unfold rstrip.
  destruct (lstrip_split (rev s)) as (pre & E & Hpre).
  exists (rev pre). split.
  - rewrite <- rev_app_distr, <- E. now rewrite rev_involutive.
  - now rewrite forallb_rev.
Qed.

(** [s.strip()] is [s] without a whitespace prefix and a whitespace suffix,
    and it neither starts nor ends with whitespace. *)
Lemma strip_spec (s : str) :
  (exists pre post,
      s = pre ++ strip s ++ post
      /\ forallb isspace pre = true /\ forallb isspace post = true)
  /\ trimmed (strip s).
Proof.
  split.
  - destruct (lstrip_split s) as (pre & E & Hpre).
    destruct (rstrip_split (lstrip s)) as (post & E' & Hpost).
    exists pre, post. unfold strip. now rewrite <- E', <- E.
  - unfold trimmed, strip. split.
    + pose proof (lstrip_head s) as Hh.
      destruct (lstrip s) as [|c t] eqn:E; [exact I|].
      destruct (rstrip_keeps_head c t Hh) as [s' ->]. exact Hh.
    + unfold rstrip. rewrite rev_involutive. apply lstrip_head.
Qed.

(** ** The submitter *)

(** X1. Whenever a submission reaches the provider, it does so with exactly
    one create-tracking-request call, made with a configured credential; the
    payload asks for a [bill_of_lading] lookup, carries the SCAC code the
    table gives for the carrier, and as request number the booking reference
    with its surrounding whitespace removed and nothing else changed: a
    non-empty string that neither starts nor ends with whitespace. *)
Theorem submit_sends_one_trimmed_request
    (k : option str) (net : upstream) (req : TrackBookingRequest)
    (tr : list event) (res : http_exception + json) :
  track_by_booking k net req = (tr, res) ->
  tr <> [] ->
  exists scac number,
    lookup SCAC_MAP (carrier req) = Some scac
    /\ tr = [ (CreateTrackingRequest (tracking_payload number scac),
               net [] (CreateTrackingRequest (tracking_payload number scac))) ]
    /\ tracking_payload number scac
       = JDict [ (lit "data",
                  JDict [ (lit "type", JStr (lit "tracking_request"));
                          (lit "attributes",
                           JDict [ (lit "request_type", JStr (lit "bill_of_lading"));
                                   (lit "request_number", JStr number);
                                   (lit "scac", JStr scac) ]) ]) ]
    /\ number <> []
    /\ trimmed number
    /\ (exists pre post,
           bookingRef req = pre ++ number ++ post
           /\ forallb isspace pre = true /\ forallb isspace post = true)
    /\ ~ credential_missing k.
Proof.
  intros H Hne.
  destruct (track_by_booking_trace k net req) as [E | (scac & L & _ & E)].
  { rewrite H in E. contradiction. }
  rewrite H in E. simpl in E.
  exists scac, (strip (bookingRef req)).
  destruct (strip_spec (bookingRef req)) as [Hsplit Htrim].
  repeat split; try assumption; try (apply Htrim).
  - intros Hnil. revert H. unfold track_by_booking. rewrite Hnil. simpl.
    rewrite orb_true_r. intros H. injection H as <- _. contradiction.
  - intros Hk. apply credential_missing_not_configured in Hk.
    revert H. unfold track_by_booking. rewrite Hk.
    destruct (negb (str_truthy (bookingRef req)) || _);
      intros H; injection H as <- _; contradiction.
Qed.

Lemma submit_sends_one_trimmed_request_witness :
  let run := track_by_booking Scenario.live_key
               (Scenario.always Scenario.duplicate_422)
               (Scenario.booking "  BKG 123 " "ZIM") in
  fst run <> []
  /\ map fst (fst run)
     = [CreateTrackingRequest (tracking_payload (lit "BKG 123") (lit "ZIMU"))].
Proof.
  intros run.
  assert (Hne : fst run <> []) by discriminate.
  split; [exact Hne|].
  destruct (submit_sends_one_trimmed_request Scenario.live_key
              (Scenario.always Scenario.duplicate_422)
              (Scenario.booking "  BKG 123 " "ZIM")
              (fst run) (snd run) (surjective_pairing run) Hne)
    as (scac & number & _ & Htr & _).
  reflexivity.
Defined.

(** X21. A submission with a booking reference that is not blank, a
    configured credential and a carrier name of the table always reaches the
    provider: exactly one create-tracking-request call is made, carrying the
    stripped reference and the code the table gives for that name. *)
Theorem known_carrier_reaches_provider
    (k : option str) (net : upstream) (req : TrackBookingRequest) :
  ~ blank (bookingRef req) ->
  ~ credential_missing k ->
  In (carrier req) SCAC_MAP_keys ->
  exists scac,
    lookup SCAC_MAP (carrier req) = Some scac
    /\ let rq := CreateTrackingRequest
                   (tracking_payload (strip (bookingRef req)) scac) in
       fst (track_by_booking k net req) = [(rq, net [] rq)].
Proof.
  intros Hb Hk Hc.
  destruct (known_carrier_is_submitted k net req Hb Hk Hc)
    as (scac & rq & o & L & -> & Htr).
  exists scac. split; [exact L|].
  destruct (track_by_booking_trace k net req) as [E | (scac' & L' & _ & E)].
  - rewrite E in Htr. discriminate Htr.
  - rewrite L in L'. injection L' as <-. exact E.
Qed.

Lemma known_carrier_reaches_provider_witness :
  (~ blank (lit "BKG123"))
  /\ (~ credential_missing Scenario.live_key)
  /\ In (lit "Yang Ming") SCAC_MAP_keys
  /\ map fst (fst (track_by_booking Scenario.live_key Scenario.unreachable
                     (Scenario.booking "BKG123" "Yang Ming")))
     = [CreateTrackingRequest (tracking_payload (lit "BKG123") (lit "YMLU"))].
Proof.
  assert (Hb : ~ blank (lit "BKG123")).
  { intros [H | H]; discriminate H. }
  assert (Hk : ~ credential_missing Scenario.live_key).
  { intros [H | H]; [discriminate H|].
    injection H as H. vm_compute in H. discriminate H. }
  assert (Hc : In (lit "Yang Ming") SCAC_MAP_keys).
  { do 9 right. left. reflexivity. }
  split; [exact Hb|]. split; [exact Hk|]. split; [exact Hc|].
  destruct (known_carrier_reaches_provider Scenario.live_key
              Scenario.unreachable (Scenario.booking "BKG123" "Yang Ming")
              Hb Hk Hc) as (scac & _ & _).
  reflexivity.
Defined.

(** X2. If the create-tracking-request call raised an exception, the
    submission ends with [HTTPException(504, "Terminal49 request timed out")]
    when it is a timeout and with [HTTPException(502, str(e))] otherwise. *)
Theorem submit_exception_is_504_or_502
    (k : option str) (net : upstream) (req : TrackBookingRequest)
    (tr : list event) (res : http_exception + json)
    (rq : request) (e : exn) :
  track_by_booking k net req = (tr, res) ->
  In (rq, Raised e) tr ->
  res = inl (raised_as (lit "Terminal49 request timed out") e).
Proof.
  intros H Hin.
  destruct (track_by_booking_trace k net req) as [E | (scac & _ & Hdef & E)].
  { rewrite H in E. simpl in E. subst tr. contradiction. }
  rewrite H in E. simpl in E. subst tr.
  destruct Hin as [Hin | []].
  assert (Hnet := f_equal snd Hin). simpl in Hnet. clear Hin.
  rewrite H in Hdef. revert Hdef.
  unfold track_by_booking_try, bind, call. rewrite Hnet. simpl.
  unfold raised_as. destruct (is_timeout e); intros Hdef; now injection Hdef.
Qed.

Lemma submit_exception_is_504_or_502_witness :
  let run := track_by_booking Scenario.live_key Scenario.unreachable
               (Scenario.booking "BKG123" "MSC") in
  In (CreateTrackingRequest (tracking_payload (lit "BKG123") (lit "MSCU")),
      Raised (Exn false (lit "All connection attempts failed"))) (fst run)
  /\ snd run = inl (HTTPException 502 (lit "All connection attempts failed")).
Proof.
  intros run.
  assert (Hin : In (CreateTrackingRequest
                      (tracking_payload (lit "BKG123") (lit "MSCU")),
                    Raised (Exn false (lit "All connection attempts failed")))
                   (fst run)) by (left; reflexivity).
  split; [exact Hin|].
  exact (submit_exception_is_504_or_502 Scenario.live_key Scenario.unreachable
           (Scenario.booking "BKG123" "MSC") (fst run) (snd run) _ _
           (surjective_pairing run) Hin).
Defined.

(** ** The poller *)

Lemma poll_shipment_well_traced net sid :
  well_traced (fun _ => True) (poll_shipment net sid).
Proof.
  unfold poll_shipment.
  repeat well_traced_step; try exact I.
  eapply well_traced_weaken; [|apply fetch_containers_well_traced].
  intros; exact I.
Qed.

Lemma poll_try_well_traced net rid :
  well_traced (fun _ => True) (poll_tracking_request_try net rid).
Proof.
  unfold poll_tracking_request_try.
  repeat well_traced_step; try exact I.
  apply poll_shipment_well_traced.
Qed.

(** X3. If any upstream call of a poll raised an exception [e] (the tracking
    request read, the shipment read or any container read), the poll ends
    with [HTTPException(504, "Timeout polling Terminal49")] when [e] is a
    timeout and with [HTTPException(502, str(e))] otherwise: a container read
    that raises is not dropped like one that returns a non-200 status. *)
Theorem poll_exception_is_504_or_502
    (k : option str) (net : upstream) (rid : str)
    (tr : list event) (res : http_exception + json)
    (rq : request) (e : exn) :
  poll_tracking_request k net rid = (tr, res) ->
  In (rq, Raised e) tr ->
  res = inl (raised_as (lit "Timeout polling Terminal49") e).
Proof.
  unfold poll_tracking_request.
  destruct (not_configured k).
  - intros H. injection H as <- _. contradiction.
  - destruct (poll_tracking_request_try net rid []) as [h' r] eqn:E.
    destruct (poll_try_well_traced net rid _ _ _ E) as (evs & -> & _ & R).
    simpl. intros H Hin.
    assert (Htr : tr = evs).
    { destruct r as [e'|v]; [destruct (is_timeout e')|]; now injection H as <- _. }
    subst tr. rewrite (R _ _ Hin) in H. unfold raised_as.
    destruct (is_timeout e); now injection H as <-.
Qed.

Lemma poll_exception_is_504_or_502_witness :
  let run := poll_tracking_request Scenario.live_key
               Scenario.second_container_times_out (lit "tr-1") in
  In (ReadContainer (JStr (lit "C2")), Raised (Exn true (lit "timed out")))
     (fst run)
  /\ snd run = inl (HTTPException 504 (lit "Timeout polling Terminal49")).
Proof.
  intros run.
  assert (Hin : In (ReadContainer (JStr (lit "C2")),
                    Raised (Exn true (lit "timed out"))) (fst run)).
  { right. right. right. left. reflexivity. }
  split; [exact Hin|].
  exact (poll_exception_is_504_or_502 Scenario.live_key
           Scenario.second_container_times_out (lit "tr-1")
           (fst run) (snd run) _ _ (surjective_pairing run) Hin).
Defined.

(** X4. When the tracking request read returns a status other than 200, the
    poll makes no further call.  If the body decodes, the poll returns
    normally with [success] false, the upstream status code and the decoded
    body; if it does not decode, the poll ends with
    [HTTPException(502)] carrying the decoding error. *)
Theorem poll_request_not_200
    (k : option str) (net : upstream) (rid rid' : str)
    (tr : list event) (res : http_exception + json) (resp : response) :
  poll_tracking_request k net rid = (tr, res) ->
  In (ReadTrackingRequest rid', Returned resp) tr ->
  status_code resp <> 200%Z ->
  tr = [(ReadTrackingRequest rid, Returned resp)]
  /\ res = match body resp with
           | inr data =>
               inr (JDict [ (lit "success", JBool false);
                            (lit "status", JInt (status_code resp));
                            (lit "data", data) ])
           | inl msg => inl (HTTPException 502 msg)
           end.
Proof.
  intros H Hin Hst.
  destruct (poll_first_event _ _ _ _ _ _ _ H Hin) as [Hnet Hk].
  revert H. unfold poll_tracking_request. rewrite Hk.
  unfold poll_tracking_request_try, bind, call, lift, ret, json_of.
  rewrite Hnet. apply Z.eqb_neq in Hst. rewrite Hst. simpl.
  destruct (body resp) as [msg|data]; simpl;
    intros H; injection H as <- <-; now split.
Qed.

Lemma poll_request_not_200_witness :
  let run := poll_tracking_request Scenario.live_key
               TrackingScenario.unauthorized (lit "tr-1") in
  fst run
  = [(ReadTrackingRequest (lit "tr-1"),
      Returned TrackingScenario.unauthorized_401)]
  /\ field match snd run with inr env => env | inl _ => JNull end "status"
     = Some (JInt 401).
Proof.
  intros run.
  destruct (poll_request_not_200 Scenario.live_key
              TrackingScenario.unauthorized (lit "tr-1") (lit "tr-1")
              (fst run) (snd run) TrackingScenario.unauthorized_401
              (surjective_pairing run) (or_introl eq_refl))
    as [Htr Hres].
  - simpl. lia.
  - split; [exact Htr|]. rewrite Hres. reflexivity.
Defined.

(** X5. When the tracking request read returns HTTP 200 with status "failed",
    the poll makes no further call and returns [success] false,
    [tracking_status = "failed"] and as reason the upstream [failed_reason]
    as it is; "Unknown error" when the attribute is absent. *)
Theorem poll_failed_reports_reason
    (k : option str) (net : upstream) (rid rid' : str)
    (tr : list event) (res : http_exception + json)
    (resp : response) (tr_data : json) (d : list (str * json)) :
  poll_tracking_request k net rid = (tr, res) ->
  In (ReadTrackingRequest rid', Returned resp) tr ->
  status_code resp = 200%Z ->
  body resp = inr tr_data ->
  tracking_attrs tr_data = inr (JDict d) ->
  lookup d (lit "status") = Some (JStr (lit "failed")) ->
  tr = [(ReadTrackingRequest rid, Returned resp)]
  /\ res = inr (JDict [ (lit "success", JBool false);
                        (lit "tracking_status", JStr (lit "failed"));
                        (lit "reason",
                         match lookup d (lit "failed_reason") with
                         | Some reason => reason
                         | None => JStr (lit "Unknown error")
                         end) ]).
Proof.
  intros H Hin Hst Hbody Hattrs Hstatus.
  destruct (poll_first_event _ _ _ _ _ _ _ H Hin) as [Hnet Hk].
  revert H. unfold poll_tracking_request. rewrite Hk.
  unfold poll_tracking_request_try, bind, call, lift, ret, json_of,
    tracking_status, py_get.
  rewrite Hnet, Hst, Hbody. simpl. rewrite Hattrs. simpl. rewrite Hstatus.
  simpl.
  destruct (lookup d (lit "failed_reason")); simpl;
    intros H; injection H as <- <-; now split.
Qed.

Lemma poll_failed_reports_reason_witness :
  let run := poll_tracking_request Scenario.live_key
               TrackingScenario.failed_with_reason (lit "tr-1") in
  List.length (fst run) = 1%nat
  /\ field match snd run with inr env => env | inl _ => JNull end "reason"
     = Some (JStr (lit "carrier rejected")).
Proof.
  intros run.
  destruct (poll_failed_reports_reason Scenario.live_key
              TrackingScenario.failed_with_reason (lit "tr-1") (lit "tr-1")
              (fst run) (snd run)
              (Response 200 (inr TrackingScenario.failed_body))
              TrackingScenario.failed_body
              [ (lit "status", JStr (lit "failed"));
                (lit "failed_reason", JStr (lit "carrier rejected")) ]
              (surjective_pairing run) (or_introl eq_refl)
              eq_refl eq_refl eq_refl eq_refl)
    as [Htr Hres].
  rewrite Htr, Hres. split; reflexivity.
Defined.

(** X6. When the tracking request read returns HTTP 200 with a status that is
    neither "pending" nor "failed" and no shipment is linked (the tracked
    object is missing, empty, or has no identifier), the poll makes no
    further call and returns [success] true with the upstream status as it
    is and the try-again advice. *)
Theorem poll_not_linked_yet
    (k : option str) (net : upstream) (rid rid' : str)
    (tr : list event) (res : http_exception + json)
    (resp : response) (tr_data attrs status tracked_obj : json) :
  poll_tracking_request k net rid = (tr, res) ->
  In (ReadTrackingRequest rid', Returned resp) tr ->
  status_code resp = 200%Z ->
  body resp = inr tr_data ->
  tracking_attrs tr_data = inr attrs ->
  tracking_status attrs = inr status ->
  eq_str status (lit "pending") = false ->
  eq_str status (lit "failed") = false ->
  tracked_object tr_data = inr tracked_obj ->
  not_linked tracked_obj = inr true ->
  tr = [(ReadTrackingRequest rid, Returned resp)]
  /\ res = inr (JDict [ (lit "success", JBool true);
                        (lit "tracking_status", status);
                        (lit "message",
                         JStr (lit "Processed but no shipment linked yet. Try again shortly.")) ]).
Proof.
  intros H Hin Hst Hbody Hattrs Hstatus Hp Hf Hobj Hlink.
  destruct (poll_first_event _ _ _ _ _ _ _ H Hin) as [Hnet Hk].
  revert H. unfold poll_tracking_request. rewrite Hk.
  unfold poll_tracking_request_try, bind, call, lift, ret, json_of.
  rewrite Hnet, Hst, Hbody. simpl. rewrite Hattrs, Hstatus, Hp, Hf, Hobj, Hlink.
  simpl. intros H. injection H as <- <-. now split.
Qed.

Lemma poll_not_linked_yet_witness :
  let run := poll_tracking_request Scenario.live_key
               TrackingScenario.not_yet_linked (lit "tr-1") in
  List.length (fst run) = 1%nat
  /\ field match snd run with inr env => env | inl _ => JNull end
       "tracking_status"
     = Some (JStr (lit "created")).
Proof.
  intros run.
  destruct (poll_not_linked_yet Scenario.live_key
              TrackingScenario.not_yet_linked (lit "tr-1") (lit "tr-1")
              (fst run) (snd run)
              (Response 200 (inr TrackingScenario.created_body))
              TrackingScenario.created_body
              (Scenario.obj [("status"%string, Scenario.text "created")])
              (JStr (lit "created")) JNull
              (surjective_pairing run) (or_introl eq_refl)
              eq_refl eq_refl eq_refl eq_refl eq_refl eq_refl eq_refl eq_refl)
    as [Htr Hres].
  rewrite Htr, Hres. split; reflexivity.
Defined.

(** X7. The calls of a poll, whatever the provider answers: none at all, or
    the tracking request read alone, or that read followed by one shipment
    read and then container reads only.  A poll never creates a tracking
    request and never searches. *)
Theorem poll_call_sequence
    (k : option str) (net : upstream) (rid : str) :
  let tr := fst (poll_tracking_request k net rid) in
  tr = []
  \/ (exists o, tr = [(ReadTrackingRequest rid, o)])
  \/ (exists o sid o' cevs,
         tr = (ReadTrackingRequest rid, o) :: (ReadShipment sid, o') :: cevs
         /\ Forall (fun ev => is_container_read (fst ev)) cevs).
Proof.
  unfold poll_tracking_request.
  destruct (not_configured k); [now left|].
  right. rewrite except_504_502_trace.
  destruct (poll_try_cases net rid) as [E | [sid E]].
  - left. eexists. exact E.
  - right. rewrite E.
    destruct (poll_shipment_trace net sid
                [(ReadTrackingRequest rid, net [] (ReadTrackingRequest rid))])
      as (cevs & Htr & F).
    rewrite Htr. simpl. now eexists _, sid, _, cevs.
Qed.

(** X8. Every container record the poller returns is a dict with the same
    seventeen keys in the same order, whatever attributes the upstream
    container has. *)
Theorem poll_container_record_keys
    (k : option str) (net : upstream) (rid : str)
    (tr : list event) (env : json) (cs : list json) (c : json) :
  poll_tracking_request k net rid = (tr, inr env) ->
  field env "containers" = Some (JList cs) ->
  In c cs ->
  exists d, c = JDict d /\ map fst d = container_record_keys.
Proof.
  intros H Hf Hc.
  destruct (poll_container_origin _ _ _ _ _ _ _ H Hf Hc)
    as (cid & c_resp & _ & _ & Hrec).
  unfold record_of in Hrec.
  apply and_then_inr in Hrec as (c_body & _ & Hrec).
  apply and_then_inr in Hrec as (c_data & _ & Hrec).
  apply and_then_inr in Hrec as (c_attrs & _ & Hrec).
  unfold container_record in Hrec.
  repeat match type of Hrec with
         | and_then ?r _ = _ =>
             apply and_then_inr in Hrec as (? & _ & Hrec)
         end.
  injection Hrec as <-. eexists. split; reflexivity.
Qed.

Lemma poll_container_record_keys_witness :
  let run := poll_tracking_request Scenario.live_key
               Scenario.second_container_404 (lit "tr-1") in
  let env := match snd run with inr env => env | inl _ => JNull end in
  let cs := match field env "containers" with
            | Some (JList cs) => cs
            | _ => []
            end in
  let c := nth 0 cs JNull in
  In c cs
  /\ exists d, c = JDict d /\ List.length d = 17%nat.
Proof.
  intros run env cs c.
  assert (Hrun : run = (fst run, inr env)) by (vm_compute; reflexivity).
  assert (Hf : field env "containers" = Some (JList cs))
    by (vm_compute; reflexivity).
  assert (Hc : In c cs) by (left; reflexivity).
  split; [exact Hc|].
  destruct (poll_container_record_keys Scenario.live_key
              Scenario.second_container_404 (lit "tr-1")
              (fst run) env cs c Hrun Hf Hc) as (d & Hd & Hkeys).
  exists d. split; [exact Hd|].
  rewrite <- (length_map fst), Hkeys. reflexivity.
Defined.

(** ** The BOL search *)

Lemma search_containers_inr net crefs :
  forall acc h h' out,
    search_containers net crefs acc h = (h', inr out) ->
    exists cevs recs,
      h' = h ++ cevs
      /\ out = acc ++ recs
      /\ map fst cevs = map ReadContainer (present_ids crefs)
      /\ map Some recs = map raw_data_of_event (filter returned_200 cevs).
Proof.
  induction crefs as [|cref rest IH]; intros acc h h' out H; simpl in H.
  - apply ret_inr in H as [-> ->].
    exists [], []. now rewrite !app_nil_r.
  - invert_run H as cid Hid.
    destruct (truthy cid) eqn:Hcid.
    + invert_run H as c_resp Hnet.
      destruct (status_code c_resp =? 200)%Z eqn:Hst.
      * invert_run H as c_body Hbody.
        invert_run H as c_data Hdata.
        destruct (IH _ _ _ _ H) as (cevs & recs & -> & -> & Hreq & Hrec).
        exists ((ReadContainer cid, Returned c_resp) :: cevs), (c_data :: recs).
        rewrite <- !app_assoc. repeat split.
        -- simpl. rewrite Hreq. unfold present_ids. simpl.
           now rewrite Hid, Hcid.
        -- simpl. unfold returned_200 at 1. simpl. rewrite Hst. simpl.
           rewrite Hrec. f_equal.
           unfold raw_data_of_event, raw_data_of. simpl.
           rewrite Hbody. simpl. now rewrite Hdata.
      * destruct (IH _ _ _ _ H) as (cevs & recs & -> & -> & Hreq & Hrec).
        exists ((ReadContainer cid, Returned c_resp) :: cevs), recs.
        rewrite <- !app_assoc. repeat split.
        -- simpl. rewrite Hreq. unfold present_ids. simpl.
           now rewrite Hid, Hcid.
        -- simpl. unfold returned_200 at 1. simpl. now rewrite Hst.
    + destruct (IH _ _ _ _ H) as (cevs & recs & -> & -> & Hreq & Hrec).
      exists cevs, recs. repeat split; [|exact Hrec].
      rewrite Hreq. unfold present_ids. simpl. now rewrite Hid, Hcid.
Qed.

Lemma search_containers_origin net crefs h h' out c :
  search_containers net crefs [] h = (h', inr out) ->
  In c out ->
  exists evs, h' = h ++ evs /\ from_a_200_read evs c.
Proof.
  intros H Hc.
  destruct (search_containers_inr _ _ _ _ _ _ H)
    as (cevs & recs & -> & Hout & Hreq & Hrec).
  simpl in Hout. subst recs. exists cevs. split; [reflexivity|].
  assert (Hin : In (Some c) (map raw_data_of_event (filter returned_200 cevs))).
  { rewrite <- Hrec. now apply in_map. }
  apply in_map_iff in Hin as ([rq o] & Hev & Hin).
  apply filter_In in Hin as [Hin H200].
  assert (Hrq : In rq (map ReadContainer (present_ids crefs))).
  { rewrite <- Hreq. apply (in_map fst) in Hin. exact Hin. }
  apply in_map_iff in Hrq as (cid & <- & _).
  unfold returned_200 in H200. unfold raw_data_of_event in Hev.
  simpl in H200, Hev.
  destruct o as [c_resp|e]; [|discriminate].
  exists cid, c_resp. split; [exact Hin|]. split; [now apply Z.eqb_eq|].
  destruct (raw_data_of c_resp); congruence.
Qed.

Lemma from_a_200_read_app_l evs evs' c :
  from_a_200_read evs c -> from_a_200_read (evs ++ evs') c.
Proof.
  intros (cid & c_resp & Hin & H). exists cid, c_resp.
  split; [|exact H]. apply in_or_app. now left.
Qed.

Lemma from_a_200_read_app_r evs evs' c :
  from_a_200_read evs' c -> from_a_200_read (evs ++ evs') c.
Proof.
  intros (cid & c_resp & Hin & H). exists cid, c_resp.
  split; [|exact H]. apply in_or_app. now right.
Qed.

Lemma search_entry_inr ship s_attrs containers entry :
  search_entry ship s_attrs containers = inr entry ->
  entry_of ship entry
  /\ field entry "containers" = Some (JList containers).
Proof.
  unfold search_entry. intros H.
  apply and_then_inr in H as (id & Hid & H).
  repeat match type of H with
         | and_then ?r _ = _ =>
             apply and_then_inr in H as (? & _ & H)
         end.
  injection H as <-. split; [|reflexivity].
  eexists _, containers. split; [reflexivity|].
  destruct ship as [| | | | | |d]; try discriminate Hid.
  exists d. split; [reflexivity|].
  unfold py_get, get_or_null in *. simpl.
  destruct (lookup d (lit "id")); congruence.
Qed.

(** A successful run of the shipment loop: one entry per shipment, in order,
    and every container of an entry comes from a read that returned 200. *)
Lemma search_shipments_inr net ships :
  forall acc h h' out,
    search_shipments net ships acc h = (h', inr out) ->
    exists evs entries,
      h' = h ++ evs
      /\ out = acc ++ entries
      /\ Forall2 entry_of ships entries
      /\ forall entry containers c,
           In entry entries ->
           field entry "containers" = Some (JList containers) ->
           In c containers ->
           from_a_200_read evs c.
Proof.
  induction ships as [|ship rest IH]; intros acc h h' out H; simpl in H.
  - apply ret_inr in H as [-> ->].
    exists [], []. rewrite !app_nil_r. repeat split; [constructor|].
    intros entry containers c [].
  - invert_run H as refs Hrefs.
    invert_run H as crefs Hcrefs.
    invert_run H as containers Hloop.
    invert_run H as s_attrs Hattrs.
    invert_run H as entry Hentry.
    destruct (search_entry_inr _ _ _ _ Hentry) as [Hof Hcs].
    destruct (search_containers_inr _ _ _ _ _ _ Hloop)
      as (cevs & recs & Hh & _ & _ & _).
    destruct (IH _ _ _ _ H) as (evs & entries & -> & -> & Hall & Horigin).
    subst h0.
    exists (cevs ++ evs), (entry :: entries).
    rewrite <- !app_assoc. repeat split.
    + now constructor.
    + intros entry' containers' c [<- | Hin] Hf Hc.
      * rewrite Hcs in Hf. injection Hf as <-.
        destruct (search_containers_origin _ _ _ _ _ _ Hloop Hc)
          as (cevs' & E & Hfrom).
        apply app_inv_head in E. subst cevs'.
        now apply from_a_200_read_app_l.
      * apply from_a_200_read_app_r. exact (Horigin _ _ _ Hin Hf Hc).
Qed.

Lemma except_502_inr x tr (env : json) :
  except_502 x = (tr, inr env) -> x = (tr, inr env).
Proof.
  destruct x as [h [e|v]]; simpl; intros H; [discriminate H|].
  injection H as -> ->. reflexivity.
Qed.

Lemma except_502_trace x : fst (except_502 x) = fst x.
Proof. now destruct x as [h [e|v]]. Qed.

(** The search starts with the shipment search for the stripped string;
    every later call is a container read. *)
Lemma search_try_trace net bol :
  exists cevs,
    fst (search_shipments_by_bol_try net bol [])
    = (SearchShipments (strip bol), net [] (SearchShipments (strip bol)))
      :: cevs
    /\ Forall (fun ev => is_container_read (fst ev)) cevs.
Proof.
  unfold search_shipments_by_bol_try.
  match goal with
  | |- context [bind (call net _) ?k] => set (rest := k)
  end.
  assert (W : forall resp, well_traced is_container_read (rest resp)).
  { intros resp. unfold rest.
    repeat well_traced_step. apply search_shipments_well_traced. }
  unfold bind, call.
  destruct (net [] (SearchShipments (strip bol))) as [resp|e] eqn:E.
  - destruct (rest resp ([] ++ [(SearchShipments (strip bol), Returned resp)]))
      as [h' r] eqn:K.
    destruct (W _ _ _ _ K) as (cevs & -> & F & _).
    exists cevs. simpl in K |- *. rewrite K. now split.
  - exists []. simpl. now split.
Qed.

Lemma search_first_event k net bol b tr res (o : outcome) :
  search_shipments_by_bol k net bol = (tr, res) ->
  In (SearchShipments b, o) tr ->
  net [] (SearchShipments (strip bol)) = o /\ not_configured k = false.
Proof.
  unfold search_shipments_by_bol.
  destruct (not_configured k).
  { intros H. injection H as <- _. contradiction. }
  intros H Hin. split; [|reflexivity].
  apply (f_equal fst) in H. rewrite except_502_trace in H. simpl in H.
  subst tr.
  destruct (search_try_trace net bol) as (cevs & Htr & F).
  rewrite Htr in Hin. destruct Hin as [Hin | Hin].
  - now injection Hin as _ ->.
  - rewrite Forall_forall in F. destruct (F _ Hin) as [cid Hc].
    discriminate Hc.
Qed.

(** X9. A search with a configured credential always starts with the
    shipment search for the stripped string, whatever the string is (a blank
    one is searched for as the empty string: the search validates nothing),
    and every later call is a container read. *)
Theorem search_call_sequence
    (k : option str) (net : upstream) (bol : str) :
  ~ credential_missing k ->
  exists o cevs,
    fst (search_shipments_by_bol k net bol)
    = (SearchShipments (strip bol), o) :: cevs
    /\ o = net [] (SearchShipments (strip bol))
    /\ Forall (fun ev => is_container_read (fst ev)) cevs.
Proof.
  intros Hk. unfold search_shipments_by_bol.
  destruct (not_configured k) eqn:E.
  { apply credential_missing_not_configured in E. contradiction. }
  rewrite except_502_trace.
  destruct (search_try_trace net bol) as (cevs & Htr & F).
  exists (net [] (SearchShipments (strip bol))), cevs.
  split; [exact Htr|]. split; [reflexivity | exact F].
Qed.

Lemma search_call_sequence_witness :
  (~ credential_missing Scenario.live_key)
  /\ map fst (fst (search_shipments_by_bol Scenario.live_key
                     TrackingScenario.no_matches (lit "   ")))
     = [SearchShipments []].
Proof.
  assert (Hk : ~ credential_missing Scenario.live_key).
  { intros [H | H]; [discriminate H|].
    injection H as H. vm_compute in H. discriminate H. }
  split; [exact Hk|].
  destruct (search_call_sequence Scenario.live_key
              TrackingScenario.no_matches (lit "   ") Hk)
    as (o & cevs & Htr & _ & _).
  reflexivity.
Defined.

(** X10. When the shipment search returns a body that decodes to an object
    with no [data] member or an empty [data] list, the search makes no
    further call and returns [success] true with no results and
    [totalShipments = 0], whatever the HTTP status of that response is. *)
Theorem search_without_matches
    (k : option str) (net : upstream) (bol b : str)
    (tr : list event) (res : http_exception + json)
    (resp : response) (d : list (str * json)) :
  search_shipments_by_bol k net bol = (tr, res) ->
  In (SearchShipments b, Returned resp) tr ->
  body resp = inr (JDict d) ->
  lookup d (lit "data") = None \/ lookup d (lit "data") = Some (JList []) ->
  tr = [(SearchShipments (strip bol), Returned resp)]
  /\ res = inr (JDict [ (lit "success", JBool true);
                        (lit "results", JList []);
                        (lit "totalShipments", JInt 0) ]).
Proof.
  intros H Hin Hbody Hdata.
  destruct (search_first_event _ _ _ _ _ _ _ H Hin) as [Hnet Hk].
  revert H. unfold search_shipments_by_bol. rewrite Hk.
  unfold search_shipments_by_bol_try, bind, call, lift, ret, json_of, py_get.
  rewrite Hnet, Hbody. simpl.
  destruct Hdata as [-> | ->]; simpl;
    intros H; injection H as <- <-; now split.
Qed.

Lemma search_without_matches_witness :
  let run := search_shipments_by_bol Scenario.live_key
               TrackingScenario.unauthorized (lit "BOL1") in
  fst run
  = [(SearchShipments (lit "BOL1"), Returned TrackingScenario.unauthorized_401)]
  /\ field match snd run with inr env => env | inl _ => JNull end "success"
     = Some (JBool true).
Proof.
  intros run.
  destruct (search_without_matches Scenario.live_key
              TrackingScenario.unauthorized (lit "BOL1") (lit "BOL1")
              (fst run) (snd run) TrackingScenario.unauthorized_401
              [(lit "errors", JList [Scenario.text "Unauthorized"])]
              (surjective_pairing run) (or_introl eq_refl) eq_refl
              (or_introl eq_refl))
    as [Htr Hres].
  rewrite Htr, Hres. split; reflexivity.
Defined.

Lemma search_succeeded_inv k net bol tr env :
  search_shipments_by_bol k net bol = (tr, inr env) ->
  exists resp data shipments ships entries cevs,
    tr = (SearchShipments (strip bol), Returned resp) :: cevs
    /\ body resp = inr data
    /\ py_get data "data" (JList []) = inr shipments
    /\ py_iter shipments = inr ships
    /\ env = JDict [ (lit "success", JBool true);
                     (lit "results", JList entries);
                     (lit "totalShipments",
                      JInt (Z.of_nat (List.length entries))) ]
    /\ Forall2 entry_of ships entries
    /\ forall entry containers c,
         In entry entries ->
         field entry "containers" = Some (JList containers) ->
         In c containers ->
         from_a_200_read cevs c.
Proof.
  unfold search_shipments_by_bol.
  destruct (not_configured k); [discriminate|].
  intros H. apply except_502_inr in H.
  unfold search_shipments_by_bol_try in H.
  invert_run H as resp Hnet.
  invert_run H as data Hbody.
  invert_run H as shipments Hdata.
  invert_run H as ships Hships.
  invert_run H as results Hloop.
  apply ret_inr in H as [-> ->].
  destruct (search_shipments_inr _ _ _ _ _ _ Hloop)
    as (cevs & entries & -> & Hout & Hall & Horigin).
  simpl in Hout. subst results.
  exists resp, data, shipments, ships, entries, cevs.
  repeat split; try assumption.
  unfold json_of in Hbody. destruct (body resp); congruence.
Qed.

(** X11. A search that returns has one result entry per shipment of the
    upstream [data] list, in order: each entry carries that shipment's [id],
    a container list and, as [containerCount], the length of that list; and
    [totalShipments] is the number of upstream shipments. *)
Theorem search_lists_every_shipment
    (k : option str) (net : upstream) (bol : str)
    (tr : list event) (env : json) :
  search_shipments_by_bol k net bol = (tr, inr env) ->
  exists resp data shipments ships entries,
    In (SearchShipments (strip bol), Returned resp) tr
    /\ body resp = inr data
    /\ py_get data "data" (JList []) = inr shipments
    /\ py_iter shipments = inr ships
    /\ env = JDict [ (lit "success", JBool true);
                     (lit "results", JList entries);
                     (lit "totalShipments",
                      JInt (Z.of_nat (List.length ships))) ]
    /\ Forall2 entry_of ships entries.
Proof.
  intros H.
  destruct (search_succeeded_inv _ _ _ _ _ H)
    as (resp & data & shipments & ships & entries & cevs
        & -> & Hbody & Hdata & Hships & -> & Hall & _).
  exists resp, data, shipments, ships, entries.
  repeat split; try assumption.
  - now left.
  - now rewrite (Forall2_length Hall).
Qed.

Lemma search_lists_every_shipment_witness :
  let run := search_shipments_by_bol Scenario.live_key
               Scenario.second_container_404 (lit " BOL1 ") in
  let env := match snd run with inr env => env | inl _ => JNull end in
  run = (fst run, inr env)
  /\ field env "totalShipments" = Some (JInt 1)
  /\ map fst (fst run)
     = [ SearchShipments (lit "BOL1");
         ReadContainer (JStr (lit "C1")); ReadContainer (JStr (lit "C2")) ].
Proof.
  intros run env.
  assert (Hrun : run = (fst run, inr env)) by (vm_compute; reflexivity).
  split; [exact Hrun|].
  destruct (search_lists_every_shipment Scenario.live_key
              Scenario.second_container_404 (lit " BOL1 ")
              (fst run) env Hrun)
    as (resp & data & shipments & ships & entries & _).
  split; reflexivity.
Defined.

(** X12. Every container a search returns is, unchanged, the [data] member
    of the body of a container read of that search that returned HTTP 200
    (the empty dict when the body has no [data]): the search passes
    containers through in their upstream form. *)
Theorem search_containers_are_upstream_data
    (k : option str) (net : upstream) (bol : str)
    (tr : list event) (env : json)
    (entries : list json) (entry : json) (containers : list json) (c : json) :
  search_shipments_by_bol k net bol = (tr, inr env) ->
  field env "results" = Some (JList entries) ->
  In entry entries ->
  field entry "containers" = Some (JList containers) ->
  In c containers ->
  from_a_200_read tr c.
Proof.
  intros H Hf Hentry Hcs Hc.
  destruct (search_succeeded_inv _ _ _ _ _ H)
    as (resp & data & shipments & ships & entries' & cevs
        & -> & _ & _ & _ & -> & _ & Horigin).
  simpl in Hf. injection Hf as ->.
  apply (from_a_200_read_app_r [_]).
  exact (Horigin _ _ _ Hentry Hcs Hc).
Qed.

Lemma search_containers_are_upstream_data_witness :
  let run := search_shipments_by_bol Scenario.live_key
               Scenario.second_container_404 (lit "BOL1") in
  let env := match snd run with inr env => env | inl _ => JNull end in
  let entries := match field env "results" with
                 | Some (JList l) => l
                 | _ => []
                 end in
  let entry := nth 0 entries JNull in
  let containers := match field entry "containers" with
                    | Some (JList l) => l
                    | _ => []
                    end in
  let c := nth 0 containers JNull in
  run = (fst run, inr env)
  /\ In entry entries /\ In c containers
  /\ c = Scenario.obj [("id"%string, Scenario.text "C1");
                       ("attributes"%string, Scenario.c1_attrs)]
  /\ from_a_200_read (fst run) c.
Proof.
  intros run env entries entry containers c.
  assert (Hrun : run = (fst run, inr env)) by (vm_compute; reflexivity).
  assert (He : In entry entries) by (left; reflexivity).
  assert (Hc : In c containers) by (left; reflexivity).
  split; [exact Hrun|]. split; [exact He|]. split; [exact Hc|].
  split; [reflexivity|].
  exact (search_containers_are_upstream_data Scenario.live_key
           Scenario.second_container_404 (lit "BOL1")
           (fst run) env entries entry containers c
           Hrun eq_refl He eq_refl Hc).
Defined.

(* ========================================================================= *)
(** * Properties of the deal store *)
(* ========================================================================= *)

Lemma endswith_iff (s suffix : str) :
  endswith s suffix = true <-> exists pre, s = pre ++ suffix.
Proof.
  unfold endswith. rewrite str_eqb_eq. split.
  - intros H.
    exists (firstn (List.length s - List.length suffix) s).
    pose proof (firstn_skipn (List.length s - List.length suffix) s) as E.
    rewrite H in E. symmetry. exact E.
  - intros [pre ->]. rewrite length_app, Nat.add_sub.
    rewrite skipn_app, skipn_all, Nat.sub_diag. reflexivity.
Qed.

(** X13. Reading the deals replies success with no deals and count 0 when
    [DATA_FILE.exists()] answers that there is no file, when the file exists
    but reading or decoding it raises (that exception is caught), and when
    the file holds a falsy value ([null], [0], [""], [[]], [{}], [false]).
    When [DATA_FILE.exists()] itself raises, nothing catches the exception
    and the read ends with it. *)
Theorem get_deals_defaults_to_empty (f : data_file) :
  (f = Missing
   \/ (exists msg, f = Stored (inl msg))
   \/ (exists v, f = Stored (inr v) /\ truthy v = false) ->
   get_deals f
   = Replied (JDict [ (lit "success", JBool true); (lit "deals", JList []);
                      (lit "count", JInt 0) ]))
  /\ (forall e, f = StatFails e -> get_deals f = Unhandled e).
Proof.
  split.
  - intros [-> | [[msg ->] | (v & -> & Hv)]]; unfold get_deals, read_deals;
      try reflexivity.
    now rewrite Hv.
  - intros e ->. reflexivity.
Qed.

Lemma get_deals_defaults_to_empty_witness :
  get_deals (Stored (inl (lit "Expecting value: line 1 column 1 (char 0)")))
  = Replied (JDict [ (lit "success", JBool true); (lit "deals", JList []);
                     (lit "count", JInt 0) ])
  /\ get_deals (Stored (inr (JDict [])))
     = Replied (JDict [ (lit "success", JBool true); (lit "deals", JList []);
                        (lit "count", JInt 0) ])
  /\ get_deals (StatFails (Exn false (lit "[Errno 13] Permission denied")))
     = Unhandled (Exn false (lit "[Errno 13] Permission denied")).
Proof.
  split; [|split].
  - destruct (get_deals_defaults_to_empty
                (Stored (inl (lit "Expecting value: line 1 column 1 (char 0)"))))
      as [H _].
    apply H. right. left. now eexists.
  - destruct (get_deals_defaults_to_empty (Stored (inr (JDict [])))) as [H _].
    apply H. right. right. now eexists.
  - destruct (get_deals_defaults_to_empty
                (StatFails (Exn false (lit "[Errno 13] Permission denied"))))
      as [_ H].
    now apply H.
Defined.

Lemma unsized_value (v : json) :
  sized_or_falsy v = false ->
  truthy v = true
  /\ py_len v = inl (Exn false (lit "object of type '" ++ type_name v
                                ++ lit "' has no len()")).
Proof.
  destruct v as [| b | n | x | s | l | d]; simpl; intros H;
    try discriminate H; apply negb_false_iff in H; now split.
Qed.

(** X14. Reading the deals ends in an uncaught exception in exactly two
    cases: [DATA_FILE.exists()] raises, and that exception leaves the
    handler; or the file holds a non-zero number or [true], which
    [read_deals] hands on and for which [len] raises [TypeError].  Any other
    file gives a normal reply. *)
Theorem get_deals_crashes_exactly_on_numbers (f : data_file) :
  (forall v, f = Stored (inr v) -> sized_or_falsy v = false ->
     get_deals f
     = Unhandled (Exn false (lit "object of type '" ++ type_name v
                             ++ lit "' has no len()")))
  /\ (forall e, get_deals f = Unhandled e ->
        f = StatFails e
        \/ exists v, f = Stored (inr v) /\ sized_or_falsy v = false)
  /\ ((exists e, get_deals f = Unhandled e)
      <-> (exists e, f = StatFails e)
          \/ exists v, f = Stored (inr v) /\ sized_or_falsy v = false).
Proof.
  assert (Honly : forall e, get_deals f = Unhandled e ->
            f = StatFails e
            \/ exists v, f = Stored (inr v) /\ sized_or_falsy v = false).
  { intros e H. unfold get_deals, read_deals in H.
    destruct f as [|[msg|v]|e']; try discriminate H.
    - right. exists v. split; [reflexivity|].
      destruct (truthy v) eqn:Hv; [|discriminate H].
      destruct (sized_or_falsy v) eqn:S; [exfalso|reflexivity].
      destruct v as [| b | n | x | s | l | d]; simpl in S, Hv;
        try discriminate Hv; try discriminate H;
        rewrite Hv in S; discriminate S.
    - left. now injection H as ->. }
  assert (Hnum : forall v, f = Stored (inr v) -> sized_or_falsy v = false ->
            get_deals f
            = Unhandled (Exn false (lit "object of type '" ++ type_name v
                                    ++ lit "' has no len()"))).
  { intros v -> Hv. unfold get_deals, read_deals.
    destruct (unsized_value v Hv) as [Ht Hl]. now rewrite Ht, Hl. }
  split; [exact Hnum|]. split; [exact Honly|]. split.
  - intros [e H]. destruct (Honly e H) as [-> | Hv]; [left; now eexists|].
    now right.
  - intros [[e ->] | (v & Hf & Hv)].
    + now exists e.
    + eexists. exact (Hnum v Hf Hv).
Qed.

Lemma get_deals_crashes_exactly_on_numbers_witness :
  get_deals (Stored (inr (JInt 5)))
  = Unhandled (Exn false (lit "object of type 'int' has no len()")).
Proof.
  destruct (get_deals_crashes_exactly_on_numbers (Stored (inr (JInt 5))))
    as [H _].
  exact (H (JInt 5) eq_refl eq_refl).
Defined.

(** X15. Round trip through the store: when the write succeeds, saving a
    list of deals replies success with their number and the file path, and a
    following read returns exactly that list, in order, with the same count,
    whatever the file held before. *)
Theorem save_then_get_round_trip
    (io : disk) (DATA_FILE : str) (f : data_file) (deals : list json) :
  io f (JList deals) = Written ->
  let '(f', r) := save_deals io DATA_FILE f deals in
  r = Replied (JDict [ (lit "success", JBool true);
                       (lit "count", JInt (Z.of_nat (List.length deals)));
                       (lit "path", JStr DATA_FILE) ])
  /\ get_deals f'
     = Replied (JDict [ (lit "success", JBool true);
                        (lit "deals", JList deals);
                        (lit "count", JInt (Z.of_nat (List.length deals))) ]).
Proof.
  intros Hio. unfold save_deals, write_deals. rewrite Hio. simpl.
  split; [reflexivity|].
  unfold get_deals, read_deals. now destruct deals.
Qed.

Lemma save_then_get_round_trip_witness :
  let f' := fst (save_deals DealScenario.reliable DealScenario.path
                   (Stored (inl (lit "corrupt"))) DealScenario.two_deals) in
  DealScenario.reliable (Stored (inl (lit "corrupt")))
    (JList DealScenario.two_deals) = Written
  /\ get_deals f'
     = Replied (JDict [ (lit "success", JBool true);
                        (lit "deals", JList DealScenario.two_deals);
                        (lit "count", JInt 2) ]).
Proof.
  intros f'. split; [reflexivity|].
  pose proof (save_then_get_round_trip DealScenario.reliable
                DealScenario.path (Stored (inl (lit "corrupt")))
                DealScenario.two_deals eq_refl) as H.
  simpl in H. destruct H as [_ H]. exact H.
Defined.

(** X16. A failed write surfaces as [HTTPException(500)] carrying the
    message of the exception, both when saving and when importing a
    well-formed upload; no success reply is given. *)
Theorem write_failure_is_500
    (io : disk) (DATA_FILE : str) (f f' : data_file)
    (deals : list json) (e : exn) :
  io f (JList deals) = WriteFailed e f' ->
  save_deals io DATA_FILE f deals
  = (f', HttpError (HTTPException 500 (exn_str e)))
  /\ forall name,
       endswith name (lit ".json") = true ->
       import_deals io DATA_FILE f
         {| filename := Some name; content := Loaded (JList deals) |}
       = (f', HttpError (HTTPException 500 (exn_str e))).
Proof.
  intros Hio. split.
  - unfold save_deals, write_deals. now rewrite Hio.
  - intros name Hname. unfold import_deals, write_deals. simpl.
    now rewrite Hname, Hio.
Qed.

Lemma write_failure_is_500_witness :
  DealScenario.full Missing (JList DealScenario.two_deals)
  = WriteFailed (Exn false (lit "[Errno 28] No space left on device")) Missing
  /\ save_deals DealScenario.full DealScenario.path Missing
       DealScenario.two_deals
     = (Missing, HttpError (HTTPException 500
                           (lit "[Errno 28] No space left on device"))).
Proof.
  split; [reflexivity|].
  destruct (write_failure_is_500 DealScenario.full DealScenario.path
              Missing Missing DealScenario.two_deals
              (Exn false (lit "[Errno 28] No space left on device")) eq_refl)
    as [H _].
  exact H.
Defined.



(** X18. Importing replaces the store: an upload named "*.json" that decodes
    to a list, written successfully, replies success with the length of the
    list, and a following read returns exactly the uploaded list, whatever
    the file held before. *)
Theorem import_then_get_round_trip
    (io : disk) (DATA_FILE : str) (f : data_file)
    (name : str) (items : list json) :
  endswith name (lit ".json") = true ->
  io f (JList items) = Written ->
  let '(f', r) := import_deals io DATA_FILE f
                    {| filename := Some name; content := Loaded (JList items) |} in
  r = Replied (JDict [ (lit "success", JBool true);
                       (lit "count", JInt (Z.of_nat (List.length items))) ])
  /\ get_deals f'
     = Replied (JDict [ (lit "success", JBool true);
                        (lit "deals", JList items);
                        (lit "count", JInt (Z.of_nat (List.length items))) ]).
Proof.
  intros Hname Hio. unfold import_deals, write_deals. simpl.
  rewrite Hname, Hio. simpl. split; [reflexivity|].
  unfold get_deals, read_deals. now destruct items.
Qed.

Lemma import_then_get_round_trip_witness :
  let f' := fst (import_deals DealScenario.reliable DealScenario.path
                   (Stored (inr (JList [DealScenario.deal "old"])))
                   (DealScenario.upload "backup.json"
                      (Loaded (JList DealScenario.two_deals)))) in
  endswith (lit "backup.json") (lit ".json") = true
  /\ get_deals f'
     = Replied (JDict [ (lit "success", JBool true);
                        (lit "deals", JList DealScenario.two_deals);
                        (lit "count", JInt 2) ]).
Proof.
  intros f'. split; [reflexivity|].
  pose proof (import_then_get_round_trip DealScenario.reliable
                DealScenario.path
                (Stored (inr (JList [DealScenario.deal "old"])))
                (lit "backup.json") DealScenario.two_deals
                eq_refl eq_refl) as H.
  simpl in H. destruct H as [_ H]. exact H.
Defined.

(** X19. Export answers [HTTPException(404)] when [DATA_FILE.exists()]
    answers that there is no file, and ends in the uncaught exception when
    [DATA_FILE.exists()] raises.  Otherwise it serves the file, and the
    download name it gives is one the import's extension check accepts, for
    every time stamp: an exported file can be uploaded again under the name
    it was given. *)
Theorem export_name_is_importable
    (DATA_FILE : str) (f : data_file) (stamp : str) :
  (f = Missing ->
   export_deals DATA_FILE f stamp
   = ExportHttpError (HTTPException 404 (lit "No deals file found")))
  /\ (forall e, f = StatFails e ->
      export_deals DATA_FILE f stamp = ExportUnhandled e)
  /\ (forall c, f = Stored c ->
      exists r,
        export_deals DATA_FILE f stamp = Served r
        /\ response_path r = DATA_FILE
        /\ media_type r = lit "application/json"
        /\ download_name r = lit "TireTrade_Backup_" ++ stamp ++ lit ".json"
        /\ forall io f0 items,
             io f0 (JList items) = Written ->
             import_deals io DATA_FILE f0
               {| filename := Some (download_name r);
                  content := Loaded (JList items) |}
             = (Stored (inr (JList items)),
                Replied (JDict [ (lit "success", JBool true);
                                 (lit "count",
                                  JInt (Z.of_nat (List.length items))) ]))).
Proof.
  split; [|split].
  - intros ->. reflexivity.
  - intros e ->. reflexivity.
  - intros c ->.
    assert (Hname : endswith (lit "TireTrade_Backup_" ++ stamp ++ lit ".json")
                      (lit ".json") = true).
    { apply endswith_iff. exists (lit "TireTrade_Backup_" ++ stamp).
      now rewrite <- app_assoc. }
    exists {| response_path := DATA_FILE;
              media_type := lit "application/json";
              download_name :=
                lit "TireTrade_Backup_" ++ stamp ++ lit ".json" |}.
    split; [reflexivity|].
    split; [reflexivity|]. split; [reflexivity|]. split; [reflexivity|].
    intros io f0 items Hio.
    unfold import_deals, write_deals.
    cbn [filename content download_name]. rewrite Hname, Hio. reflexivity.
Qed.

Lemma export_name_is_importable_witness :
  export_deals DealScenario.path Missing (lit "20240131_235959")
  = ExportHttpError (HTTPException 404 (lit "No deals file found"))
  /\ exists r,
       export_deals DealScenario.path (Stored (inr (JList [])))
         (lit "20240131_235959") = Served r
       /\ download_name r = lit "TireTrade_Backup_20240131_235959.json".
Proof.
  split.
  - destruct (export_name_is_importable DealScenario.path Missing
                (lit "20240131_235959")) as [H _].
    exact (H eq_refl).
  - destruct (export_name_is_importable DealScenario.path
                (Stored (inr (JList []))) (lit "20240131_235959"))
      as (_ & _ & H).
    destruct (H _ eq_refl) as (r & Hr & _ & _ & Hn & _).
    exists r. split; [exact Hr|]. rewrite Hn. reflexivity.
Defined.

(** X20. Startup never changes an existing deals file, and it ends in an
    exception exactly when [DATA_FILE.exists()] raises or the file holds a
    non-zero number or [true] (the message it prints takes the [len] of what
    [read_deals] returns).  When there is no file it writes the empty list
    and never ends in an exception, not even when that write fails: after a
    successful write the store reads as no deals, after a failed one the
    file is whatever the write left. *)
Theorem startup_seed_keeps_existing_file
    (io : disk) (DATA_FILE : str) (f : data_file) :
  (f <> Missing -> fst (startup_seed io DATA_FILE f) = f)
  /\ ((exists e, snd (startup_seed io DATA_FILE f) = Some e)
      <-> (exists e, f = StatFails e)
          \/ exists v, f = Stored (inr v) /\ sized_or_falsy v = false)
  /\ (forall e, f = StatFails e ->
      snd (startup_seed io DATA_FILE f) = Some e)
  /\ (forall v, f = Stored (inr v) -> sized_or_falsy v = false ->
      snd (startup_seed io DATA_FILE f)
      = Some (Exn false (lit "object of type '" ++ type_name v
                         ++ lit "' has no len()")))
  /\ (f = Missing -> io Missing (JList []) = Written ->
      startup_seed io DATA_FILE f = (Stored (inr (JList [])), None)
      /\ get_deals (fst (startup_seed io DATA_FILE f))
         = Replied (JDict [ (lit "success", JBool true);
                            (lit "deals", JList []); (lit "count", JInt 0) ]))
  /\ (f = Missing -> forall e f', io Missing (JList []) = WriteFailed e f' ->
      startup_seed io DATA_FILE f = (f', None)).
Proof.
  split; [|split; [|split; [|split; [|split]]]].
  - intros Hf. unfold startup_seed.
    destruct f as [|c|e]; [contradiction | | reflexivity].
    destruct (read_deals (Stored c)) as [e|deals]; [reflexivity|].
    now destruct (py_len deals).
  - split.
    + intros [e H]. unfold startup_seed in H.
      destruct f as [|[msg|v]|e']; try discriminate H.
      * right. exists v. split; [reflexivity|].
        unfold read_deals in H.
        destruct (truthy v) eqn:Hv; [|discriminate H].
        destruct (sized_or_falsy v) eqn:S; [exfalso|reflexivity].
        destruct v as [| b | n | x | s | l | d]; simpl in S, Hv;
          try discriminate Hv; try discriminate H;
          rewrite Hv in S; discriminate S.
      * left. now exists e'.
    + intros [[e ->] | (v & -> & Hv)].
      * now exists e.
      * unfold startup_seed, read_deals.
        destruct (unsized_value v Hv) as [Ht Hl]. rewrite Ht, Hl.
        now eexists.
  - intros e ->. reflexivity.
  - intros v -> Hv. unfold startup_seed, read_deals.
    destruct (unsized_value v Hv) as [Ht Hl]. now rewrite Ht, Hl.
  - intros -> Hio. unfold startup_seed, write_deals. rewrite Hio. simpl.
    now split.
  - intros -> e f' Hio. unfold startup_seed, write_deals. now rewrite Hio.
Qed.

Lemma startup_seed_keeps_existing_file_witness :
  startup_seed DealScenario.reliable DealScenario.path
    (Stored (inl (lit "corrupt")))
  = (Stored (inl (lit "corrupt")), None)
  /\ startup_seed DealScenario.reliable DealScenario.path (Stored (inr (JInt 5)))
     = (Stored (inr (JInt 5)),
        Some (Exn false (lit "object of type 'int' has no len()")))
  /\ startup_seed DealScenario.reliable DealScenario.path Missing
     = (Stored (inr (JList [])), None)
  /\ startup_seed DealScenario.full DealScenario.path Missing
     = (Missing, None).
Proof.
  split; [reflexivity|]. split; [|split].
  - destruct (startup_seed_keeps_existing_file DealScenario.reliable
                DealScenario.path (Stored (inr (JInt 5))))
      as (Hkeep & _ & _ & Hnum & _).
    rewrite (surjective_pairing (startup_seed _ _ _)).
    rewrite Hkeep by discriminate.
    now rewrite (Hnum (JInt 5) eq_refl eq_refl).
  - destruct (startup_seed_keeps_existing_file DealScenario.reliable
                DealScenario.path Missing) as (_ & _ & _ & _ & H & _).
    destruct (H eq_refl eq_refl) as [H' _]. exact H'.
  - destruct (startup_seed_keeps_existing_file DealScenario.full
                DealScenario.path Missing) as (_ & _ & _ & _ & _ & H).
    exact (H eq_refl _ _ eq_refl).
Defined.
